(** * Course library API: accounts, courses, resources, comments

    A shallow embedding of the back end of the course-library application:
    the authentication controller ([register], [login]) and the course
    routes (listing with filters, detail, create, update, delete, resources,
    comments), over a relational store with four tables keyed by primary
    key.  The ORM, the password hasher and the token signer are outside the
    repository: the ORM calls are modelled by their documented meaning on
    finite maps, the hasher and the signer are section variables. *)

From Stdlib Require Import Ascii.
From stdpp Require Import base strings gmap list sorting.

Open Scope string_scope.

(** ** Strings as the handlers use them *)

Module Str.

(** White space removed by [String.prototype.trim], restricted to the
    one-byte characters: TAB, LF, VT, FF, CR and SPACE. *)
Definition is_space (c : ascii) : bool :=
  let n := nat_of_ascii c in
  bool_decide (n = 9 ∨ n = 10 ∨ n = 11 ∨ n = 12 ∨ n = 13 ∨ n = 32)%nat.

Fixpoint trimStart (s : string) : string :=
  match s with
  | String c r => if is_space c then trimStart r else s
  | EmptyString => EmptyString
  end.

Fixpoint trimEnd (s : string) : string :=
  match s with
  | String c r =>
      match trimEnd r with
      | EmptyString => if is_space c then EmptyString else String c EmptyString
      | r' => String c r'
      end
  | EmptyString => EmptyString
  end.

(** [s.trim()] *)
Definition trim (s : string) : string := trimEnd (trimStart s).

(** Case folding of the database's insensitive mode, on the letters
    [A]..[Z]. *)
Definition lower_ascii (c : ascii) : ascii :=
  let n := nat_of_ascii c in
  if bool_decide (65 ≤ n ∧ n ≤ 90)%nat then ascii_of_nat (n + 32) else c.

Fixpoint lower (s : string) : string :=
  match s with
  | String c r => String (lower_ascii c) (lower r)
  | EmptyString => EmptyString
  end.

Fixpoint startsWith (p s : string) : bool :=
  match p, s with
  | EmptyString, _ => true
  | String a p', String b s' => bool_decide (a = b) && startsWith p' s'
  | String _ _, EmptyString => false
  end.

(** [p] occurs in [s] at some position: the test of a [contains]
    filter. *)
Fixpoint includes (p s : string) : bool :=
  startsWith p s ||
  match s with
  | String _ s' => includes p s'
  | EmptyString => false
  end.

(** JavaScript truthiness of a string: every string but the empty one. *)
Definition truthy (s : string) : bool := negb (bool_decide (s = "")).

(** Truthiness of a possibly [undefined] string. *)
Definition truthy_opt (o : option string) : bool :=
  match o with
  | Some s => truthy s
  | None => false
  end.

(** [o || ""] *)
Definition or_empty (o : option string) : string :=
  match o with
  | Some s => if truthy s then s else ""
  | None => ""
  end.

End Str.

(** ** Data model (the relational schema) *)

Inductive Role := STUDENT | PROFESSOR.
Inductive ResourceType := PDF | LINK | VIDEO.

(** Rows are stored under their primary key [id]; a row read back from a
    table is the pair of its key and its columns.  Timestamps are
    milliseconds. *)
Record User := mkUser {
  user_email : string;
  user_name : string;
  user_password : string;
  user_role : Role
}.

Record Course := mkCourse {
  course_title : string;
  course_description : string;
  course_category : string;
  course_createdAt : Z;
  course_ownerId : string
}.

Record Resource := mkResource {
  resource_title : string;
  resource_url : string;
  resource_type : ResourceType;
  resource_createdAt : Z;
  resource_courseId : string
}.

Record Comment := mkComment {
  comment_content : string;
  comment_createdAt : Z;
  comment_courseId : string;
  comment_userId : string
}.

Record Db := mkDb {
  users : gmap string User;
  courses : gmap string Course;
  resources : gmap string Resource;
  comments : gmap string Comment
}.

#[global] Instance Role_eq_dec : EqDecision Role.
Proof. solve_decision. Defined.
#[global] Instance ResourceType_eq_dec : EqDecision ResourceType.
Proof. solve_decision. Defined.
#[global] Instance User_eq_dec : EqDecision User.
Proof. solve_decision. Defined.
#[global] Instance Course_eq_dec : EqDecision Course.
Proof. solve_decision. Defined.
#[global] Instance Resource_eq_dec : EqDecision Resource.
Proof. solve_decision. Defined.
#[global] Instance Comment_eq_dec : EqDecision Comment.
Proof. solve_decision. Defined.

(** The foreign keys of the schema: a course references its owner, a
    resource its course, a comment its course and its author. *)
Definition foreign_keys (db : Db) : Prop :=
  map_Forall (λ _ c, is_Some (users db !! course_ownerId c)) (courses db) ∧
  map_Forall (λ _ r, is_Some (courses db !! resource_courseId r)) (resources db) ∧
  map_Forall (λ _ m, is_Some (courses db !! comment_courseId m)
                     ∧ is_Some (users db !! comment_userId m)) (comments db).

#[global] Instance foreign_keys_dec db : Decision (foreign_keys db).
Proof. unfold foreign_keys. apply _. Defined.

(** ** HTTP replies *)

(** [{ id, name }] of an account, as selected for owners and authors. *)
Definition UserRef : Type := string * string.

Record CourseSummary := mkCourseSummary {
  cs_id : string;
  cs_course : Course;
  cs_owner : option UserRef;
  cs_count_resources : nat;
  cs_count_comments : nat
}.

Record CommentView := mkCommentView {
  cv_id : string;
  cv_comment : Comment;
  cv_user : option UserRef
}.

Record CourseDetail := mkCourseDetail {
  cd_id : string;
  cd_course : Course;
  cd_owner : option UserRef;
  cd_resources : list (string * Resource);
  cd_comments : list CommentView
}.

Inductive Body :=
  | JMessage (message : string)
  | JUser (id email name : string) (role : Role)
  | JCourse (id : string) (c : Course)
  | JCourses (l : list CourseSummary)
  | JCourseDetail (d : CourseDetail)
  | JResource (id : string) (r : Resource)
  | JComment (id : string) (m : Comment)
  | JInternalError.

Record Cookie := mkCookie {
  cookie_name : string;
  cookie_value : string;
  cookie_httpOnly : bool;
  cookie_sameSite : string;
  cookie_path : string;
  cookie_maxAge : Z
}.

Record Response := mkResponse {
  status : nat;
  body : Body;
  setCookie : option Cookie
}.

(** [reply.status(code).send(b)] *)
Definition reply (code : nat) (b : Body) : Response :=
  {| status := code; body := b; setCookie := None |}.

(** A handler that returns a value replies with status 200. *)
Definition send (b : Body) : Response := reply 200 b.

(** The identity claim carried by a session token. *)
Record Claim := mkClaim {
  sub : string;
  claim_email : string;
  claim_name : string;
  claim_role : Role
}.

(** ** The ORM: queries and statements the handlers issue *)

Inductive QueryMode := sensitive | insensitive.

Inductive StringFilter :=
  | contains (value : string) (mode : QueryMode)
  | equals (value : string) (mode : QueryMode).

(** The [where] objects the listing builds: conditions on the three text
    columns, [OR] of conditions, and an object with several keys, which is
    their conjunction. *)
#[warnings="-register-all"]
Inductive CourseWhere :=
  | where_title (f : StringFilter)
  | where_description (f : StringFilter)
  | where_category (f : StringFilter)
  | where_OR (l : list CourseWhere)
  | where_keys (l : list CourseWhere).

(** What a dictionary of changes to a course holds. *)
Record CourseData := mkCourseData {
  data_title : option string;
  data_description : option string;
  data_category : option string
}.

(** Newest first: [orderBy: { createdAt: "desc" }]. *)
Definition desc {A} (createdAt : A → Z) : relation A :=
  λ a b, (createdAt b ≤ createdAt a)%Z.

#[global] Instance desc_dec {A} (f : A → Z) : RelDecision (desc f).
Proof. intros a b. unfold desc. apply _. Defined.

#[global] Instance desc_total {A} (f : A → Z) : Total (desc f).
Proof. intros a b. unfold desc. lia. Qed.

#[global] Instance desc_trans {A} (f : A → Z) : Transitive (desc f).
Proof. intros a b c. unfold desc. lia. Qed.

Module Prisma.

(** A new primary key: some key the table does not hold. *)
Definition new_id {V} (table : gmap string V) : string := fresh (dom table).

(** [user.findUnique({ where: { email } })] *)
Definition user_findUnique_email (email : string) (db : Db) : option (string * User) :=
  head (filter (λ r, user_email r.2 = email) (map_to_list (users db))).

(** [user.create({ data })] *)
Definition user_create (u : User) (db : Db) : string * Db :=
  let id := new_id (users db) in
  (id, {| users := <[id := u]> (users db); courses := courses db;
          resources := resources db; comments := comments db |}).

Definition fold (m : QueryMode) (s : string) : string :=
  match m with
  | insensitive => Str.lower s
  | sensitive => s
  end.

Definition string_matches (f : StringFilter) (column : string) : bool :=
  match f with
  | contains v m => Str.includes (fold m v) (fold m column)
  | equals v m => bool_decide (fold m column = fold m v)
  end.

Fixpoint matches (w : CourseWhere) (c : Course) : bool :=
  match w with
  | where_title f => string_matches f (course_title c)
  | where_description f => string_matches f (course_description c)
  | where_category f => string_matches f (course_category c)
  | where_OR l => existsb (λ w', matches w' c) l
  | where_keys l => forallb (λ w', matches w' c) l
  end.

(** [select: { id: true, name: true }] on the account under [id]. *)
Definition user_ref (id : string) (db : Db) : option UserRef :=
  (λ u, (id, user_name u)) <$> users db !! id.

Definition resources_of (courseId : string) (db : Db) : list (string * Resource) :=
  filter (λ r, resource_courseId r.2 = courseId) (map_to_list (resources db)).

Definition comments_of (courseId : string) (db : Db) : list (string * Comment) :=
  filter (λ r, comment_courseId r.2 = courseId) (map_to_list (comments db)).

Definition summary (db : Db) (r : string * Course) : CourseSummary :=
  {| cs_id := r.1; cs_course := r.2;
     cs_owner := user_ref (course_ownerId r.2) db;
     cs_count_resources := length (resources_of r.1 db);
     cs_count_comments := length (comments_of r.1 db) |}.

(** [course.findMany({ where, include: { owner, _count }, orderBy })] *)
Definition course_findMany (w : CourseWhere) (db : Db) : list CourseSummary :=
  summary db <$>
    merge_sort (desc (λ r, course_createdAt r.2))
      (filter (λ r, matches w r.2 = true) (map_to_list (courses db))).

Definition comment_view (db : Db) (r : string * Comment) : CommentView :=
  {| cv_id := r.1; cv_comment := r.2; cv_user := user_ref (comment_userId r.2) db |}.

(** [course.findUnique({ where: { id }, include: { owner, resources, comments } })] *)
Definition course_findUnique_detail (id : string) (db : Db) : option CourseDetail :=
  (λ c,
    {| cd_id := id; cd_course := c;
       cd_owner := user_ref (course_ownerId c) db;
       cd_resources :=
         merge_sort (desc (λ r, resource_createdAt r.2)) (resources_of id db);
       cd_comments :=
         comment_view db <$>
           merge_sort (desc (λ r, comment_createdAt r.2)) (comments_of id db) |})
  <$> courses db !! id.

(** [course.findUnique({ where: { id } })] and the like *)
Definition course_findUnique (id : string) (db : Db) : option Course := courses db !! id.
Definition resource_findUnique (id : string) (db : Db) : option Resource := resources db !! id.
Definition comment_findUnique (id : string) (db : Db) : option Comment := comments db !! id.

(** [course.create({ data })]: the row gets a new key and the statement's
    time; the database refuses an owner that is no account. *)
Definition course_create (now : Z) (title description category ownerId : string) (db : Db)
  : option (string * Course * Db) :=
  match users db !! ownerId with
  | None => None
  | Some _ =>
      let id := new_id (courses db) in
      let c := {| course_title := title; course_description := description;
                  course_category := category; course_createdAt := now;
                  course_ownerId := ownerId |} in
      Some (id, c, {| users := users db; courses := <[id := c]> (courses db);
                      resources := resources db; comments := comments db |})
  end.

Definition apply_data (d : CourseData) (c : Course) : Course :=
  {| course_title := default (course_title c) (data_title d);
     course_description := default (course_description c) (data_description d);
     course_category := default (course_category c) (data_category d);
     course_createdAt := course_createdAt c;
     course_ownerId := course_ownerId c |}.

(** [course.update({ where: { id }, data })]; no row under [id] is an
    error. *)
Definition course_update (id : string) (d : CourseData) (db : Db) : option (Course * Db) :=
  match courses db !! id with
  | None => None
  | Some c =>
      let c' := apply_data d c in
      Some (c', {| users := users db; courses := <[id := c']> (courses db);
                   resources := resources db; comments := comments db |})
  end.

(** [course.delete({ where: { id } })]; resources and comments of the
    course go with it (ON DELETE CASCADE). *)
Definition course_delete (id : string) (db : Db) : Db :=
  {| users := users db; courses := delete id (courses db);
     resources := filter (λ r, resource_courseId r.2 ≠ id) (resources db);
     comments := filter (λ r, comment_courseId r.2 ≠ id) (comments db) |}.

(** [resource.create({ data })] *)
Definition resource_create (now : Z) (title url : string) (type : ResourceType)
    (courseId : string) (db : Db) : option (string * Resource * Db) :=
  match courses db !! courseId with
  | None => None
  | Some _ =>
      let id := new_id (resources db) in
      let r := {| resource_title := title; resource_url := url; resource_type := type;
                  resource_createdAt := now; resource_courseId := courseId |} in
      Some (id, r, {| users := users db; courses := courses db;
                      resources := <[id := r]> (resources db); comments := comments db |})
  end.

(** [resource.delete({ where: { id } })] *)
Definition resource_delete (id : string) (db : Db) : Db :=
  {| users := users db; courses := courses db;
     resources := delete id (resources db); comments := comments db |}.

(** [comment.create({ data })] *)
Definition comment_create (now : Z) (content courseId userId : string) (db : Db)
  : option (string * Comment * Db) :=
  match courses db !! courseId, users db !! userId with
  | Some _, Some _ =>
      let id := new_id (comments db) in
      let m := {| comment_content := content; comment_createdAt := now;
                  comment_courseId := courseId; comment_userId := userId |} in
      Some (id, m, {| users := users db; courses := courses db;
                      resources := resources db; comments := <[id := m]> (comments db) |})
  | _, _ => None
  end.

(** [comment.delete({ where: { id } })] *)
Definition comment_delete (id : string) (db : Db) : Db :=
  {| users := users db; courses := courses db;
     resources := resources db; comments := delete id (comments db) |}.

End Prisma.

(** ** Authentication controller *)

Record RegisterBody := mkRegisterBody {
  rb_email : option string;
  rb_password : option string;
  rb_name : option string;
  rb_role : option string
}.

Record LoginBody := mkLoginBody {
  lb_email : option string;
  lb_password : option string
}.

(** A property read off a possibly missing body: [(req.body || {}).f]. *)
Definition field {B} (f : B → option string) (b : option B) : option string := b ≫= f.

(** [!v] on a possibly [undefined] string. *)
Definition falsy (v : option string) : bool := negb (Str.truthy_opt v).

Section Auth.

(** [bcrypt.hash(password, rounds)] and [bcrypt.compare(password, hash)] *)
Variable bcrypt_hash : string → nat → string.
Variable bcrypt_compare : string → string → bool.
(** [jwt.sign(payload)] *)
Variable jwt_sign : Claim → string.

Definition register (b : option RegisterBody) (db : Db) : Response * Db :=
  let email := field rb_email b in
  let password := field rb_password b in
  let name := field rb_name b in
  let role := field rb_role b in
  if falsy email || falsy password || falsy name then
    (reply 400 (JMessage "email, password, name sunt obligatorii"), db)
  else
    let email := default "" email in
    let password := default "" password in
    let name := default "" name in
    match Prisma.user_findUnique_email email db with
    | Some _ => (reply 409 (JMessage "Email deja folosit"), db)
    | None =>
        let passwordHash := bcrypt_hash password 10 in
        let role := if bool_decide (role = Some "PROFESSOR") then PROFESSOR else STUDENT in
        let '(id, db') :=
          Prisma.user_create
            {| user_email := email; user_name := name;
               user_password := passwordHash; user_role := role |} db in
        (reply 201 (JUser id email name role), db')
    end.

Definition login (b : option LoginBody) (db : Db) : Response :=
  let email := field lb_email b in
  let password := field lb_password b in
  if falsy email || falsy password then
    reply 400 (JMessage "email si password sunt obligatorii")
  else
    let email := default "" email in
    let password := default "" password in
    match Prisma.user_findUnique_email email db with
    | None => reply 401 (JMessage "Email sau parola invalide")
    | Some (id, user) =>
        if negb (bcrypt_compare password (user_password user)) then
          reply 401 (JMessage "Email sau parola invalide")
        else
          let token :=
            jwt_sign {| sub := id; claim_email := user_email user;
                        claim_name := user_name user; claim_role := user_role user |} in
          {| status := 200;
             body := JUser id (user_email user) (user_name user) (user_role user);
             setCookie :=
               Some {| cookie_name := "token"; cookie_value := token;
                       cookie_httpOnly := true; cookie_sameSite := "lax";
                       cookie_path := "/"; cookie_maxAge := (60 * 60 * 24 * 7)%Z |} |}
    end.

End Auth.

(** ** Course routes *)

Record CourseBody := mkCourseBody {
  cb_title : option string;
  cb_description : option string;
  cb_category : option string
}.

Record ResourceBody := mkResourceBody {
  rs_title : option string;
  rs_url : option string;
  rs_type : option ResourceType
}.

Record CommentBody := mkCommentBody {
  cm_content : option string
}.

Record ListQuery := mkListQuery {
  q_search : option string;
  q_category : option string
}.

(** Steps of a handler that stop with a reply or go on with a value. *)
#[global] Instance reply_bind : MBind (sum Response) :=
  λ A B k r,
    match r with
    | inl stop => inl stop
    | inr a => k a
    end.

Definition requireProfessor (user : option Claim) : option Response :=
  if bool_decide (claim_role <$> user ≠ Some PROFESSOR) then
    Some (reply 403 (JMessage "Doar profesorii pot crea sau modifica cursuri"))
  else None.

(** The [where] object of the listing, from the raw query parameters. *)
Definition list_where (q : ListQuery) : CourseWhere :=
  let searchValue := Str.trim <$> q_search q in
  let categoryValue := Str.trim <$> q_category q in
  where_keys
    ((if Str.truthy_opt searchValue then
        [where_OR [where_title (contains (default "" searchValue) insensitive);
                   where_description (contains (default "" searchValue) insensitive)]]
      else []) ++
     (if Str.truthy_opt categoryValue then
        [where_category (equals (default "" categoryValue) insensitive)]
      else [])).

(** GET /courses *)
Definition get_courses (q : ListQuery) (db : Db) : Response :=
  send (JCourses (Prisma.course_findMany (list_where q) db)).

(** GET /courses/:id *)
Definition get_course (id : string) (db : Db) : Response :=
  match Prisma.course_findUnique_detail id db with
  | None => reply 404 (JMessage "Curs inexistent")
  | Some course => send (JCourseDetail course)
  end.

(** POST /courses, after the pre-handler *)
Definition post_courses (now : Z) (b : option CourseBody) (user : Claim) (db : Db)
  : Response * Db :=
  match requireProfessor (Some user) with
  | Some deny => (deny, db)
  | None =>
      let title := Str.trim (Str.or_empty (field cb_title b)) in
      let description := Str.trim (Str.or_empty (field cb_description b)) in
      let category := Str.trim (Str.or_empty (field cb_category b)) in
      if negb (Str.truthy title) || negb (Str.truthy description) || negb (Str.truthy category)
      then (reply 400 (JMessage "title, description si category sunt obligatorii"), db)
      else
        match Prisma.course_create now title description category (sub user) db with
        | Some (id, course, db') => (send (JCourse id course), db')
        | None => (reply 500 JInternalError, db)
        end
  end.

(** The [data] object of an update: each provided field trimmed, the first
    one that trims to nothing stops the request. *)
Definition put_data (b : option CourseBody) : Response + CourseData :=
  let data := {| data_title := None; data_description := None; data_category := None |} in
  data ←
    match field cb_title b with
    | Some title =>
        let t := Str.trim title in
        if negb (Str.truthy t) then inl (reply 400 (JMessage "title invalid"))
        else inr {| data_title := Some t; data_description := data_description data;
                    data_category := data_category data |}
    | None => inr data
    end;
  data ←
    match field cb_description b with
    | Some description =>
        let d := Str.trim description in
        if negb (Str.truthy d) then inl (reply 400 (JMessage "description invalid"))
        else inr {| data_title := data_title data; data_description := Some d;
                    data_category := data_category data |}
    | None => inr data
    end;
  match field cb_category b with
  | Some category =>
      let c := Str.trim category in
      if negb (Str.truthy c) then inl (reply 400 (JMessage "category invalid"))
      else inr {| data_title := data_title data; data_description := data_description data;
                  data_category := Some c |}
  | None => inr data
  end.

(** PUT /courses/:id, after the pre-handler *)
Definition put_course (id : string) (b : option CourseBody) (user : Claim) (db : Db)
  : Response * Db :=
  match Prisma.course_findUnique id db with
  | None => (reply 404 (JMessage "Curs inexistent"), db)
  | Some course =>
      if bool_decide (course_ownerId course ≠ sub user) then
        (reply 403 (JMessage "Nu ai acces la acest curs"), db)
      else
        match put_data b with
        | inl stop => (stop, db)
        | inr data =>
            match Prisma.course_update id data db with
            | Some (updated, db') => (send (JCourse id updated), db')
            | None => (reply 500 JInternalError, db)
            end
        end
  end.

(** DELETE /courses/:id, after the pre-handler *)
Definition delete_course (id : string) (user : Claim) (db : Db) : Response * Db :=
  match Prisma.course_findUnique id db with
  | None => (reply 404 (JMessage "Curs inexistent"), db)
  | Some course =>
      if bool_decide (course_ownerId course ≠ sub user) then
        (reply 403 (JMessage "Nu ai acces la acest curs"), db)
      else (send (JMessage "Deleted"), Prisma.course_delete id db)
  end.

(** POST /courses/:id/resources, after the pre-handler *)
Definition post_resource (now : Z) (id : string) (b : option ResourceBody)
    (user : Claim) (db : Db) : Response * Db :=
  match Prisma.course_findUnique id db with
  | None => (reply 404 (JMessage "Curs inexistent"), db)
  | Some course =>
      if bool_decide (course_ownerId course ≠ sub user) then
        (reply 403 (JMessage "Nu ai acces la acest curs"), db)
      else
        let title := Str.trim (Str.or_empty (field rs_title b)) in
        let url := Str.trim (Str.or_empty (field rs_url b)) in
        match b ≫= rs_type with
        | Some type =>
            if negb (Str.truthy title) || negb (Str.truthy url) then
              (reply 400 (JMessage "title, url si type sunt obligatorii"), db)
            else
              match Prisma.resource_create now title url type id db with
              | Some (rid, r, db') => (send (JResource rid r), db')
              | None => (reply 500 JInternalError, db)
              end
        | None => (reply 400 (JMessage "title, url si type sunt obligatorii"), db)
        end
  end.

(** DELETE /resources/:id, after the pre-handler *)
Definition delete_resource (id : string) (user : Claim) (db : Db) : Response * Db :=
  match Prisma.resource_findUnique id db with
  | None => (reply 404 (JMessage "Resursa inexistenta"), db)
  | Some resource =>
      match Prisma.course_findUnique (resource_courseId resource) db with
      | Some course =>
          if bool_decide (course_ownerId course ≠ sub user) then
            (reply 403 (JMessage "Nu ai acces la aceasta resursa"), db)
          else (send (JMessage "Deleted"), Prisma.resource_delete id db)
      | None => (reply 403 (JMessage "Nu ai acces la aceasta resursa"), db)
      end
  end.

(** POST /courses/:id/comments, after the pre-handler *)
Definition post_comment (now : Z) (id : string) (b : option CommentBody)
    (user : Claim) (db : Db) : Response * Db :=
  match Prisma.course_findUnique id db with
  | None => (reply 404 (JMessage "Curs inexistent"), db)
  | Some _ =>
      let content := Str.trim (Str.or_empty (b ≫= cm_content)) in
      if negb (Str.truthy content) then
        (reply 400 (JMessage "content este obligatoriu"), db)
      else
        match Prisma.comment_create now content id (sub user) db with
        | Some (mid, m, db') => (send (JComment mid m), db')
        | None => (reply 500 JInternalError, db)
        end
  end.

(** DELETE /comments/:id, after the pre-handler *)
Definition delete_comment (id : string) (user : Claim) (db : Db) : Response * Db :=
  match Prisma.comment_findUnique id db with
  | None => (reply 404 (JMessage "Comentariu inexistent"), db)
  | Some comment =>
      if bool_decide (comment_userId comment ≠ sub user) then
        (reply 403 (JMessage "Nu ai acces la acest comentariu"), db)
      else (send (JMessage "Deleted"), Prisma.comment_delete id db)
  end.

Section Routes.

(** [request.jwtVerify()]: the claim of a token that verifies. *)
Variable jwt_verify : string → option Claim.

(** The pre-handler [authenticate], on the request's [token] cookie. *)
Definition authenticate (token : option string) : Response + Claim :=
  match token ≫= jwt_verify with
  | Some user => inr user
  | None => inl (reply 401 (JMessage "Neautorizat"))
  end.

(** A route registered with [{ preHandler: [app.authenticate] }]: the
    handler runs only when the pre-handler has not replied. *)
Definition route (token : option string) (handler : Claim → Db → Response * Db) (db : Db)
  : Response * Db :=
  match authenticate token with
  | inl stop => (stop, db)
  | inr user => handler user db
  end.

Definition POST_courses now token b := route token (post_courses now b).
Definition PUT_course token id b := route token (put_course id b).
Definition DELETE_course token id := route token (delete_course id).
Definition POST_resource now token id b := route token (post_resource now id b).
Definition DELETE_resource token id := route token (delete_resource id).
Definition POST_comment now token id b := route token (post_comment now id b).
Definition DELETE_comment token id := route token (delete_comment id).

End Routes.

(** ** The server: one request at a time *)

Inductive Request :=
  | Register (b : option RegisterBody)
  | Login (b : option LoginBody)
  | ListCourses (q : ListQuery)
  | GetCourse (id : string)
  | CreateCourse (b : option CourseBody)
  | UpdateCourse (id : string) (b : option CourseBody)
  | DeleteCourse (id : string)
  | AddResource (id : string) (b : option ResourceBody)
  | DeleteResource (id : string)
  | AddComment (id : string) (b : option CommentBody)
  | DeleteComment (id : string).

(** A request as it arrives: the time, the session token if any, and the
    route with its parameters and body. *)
Record Arrival := mkArrival {
  at_time : Z;
  with_token : option string;
  request : Request
}.

Section Server.

Variable bcrypt_hash : string → nat → string.
Variable bcrypt_compare : string → string → bool.
Variable jwt_sign : Claim → string.
Variable jwt_verify : string → option Claim.

Definition serve (a : Arrival) (db : Db) : Response * Db :=
  let now := at_time a in
  let token := with_token a in
  match request a with
  | Register b => register bcrypt_hash b db
  | Login b => (login bcrypt_compare jwt_sign b db, db)
  | ListCourses q => (get_courses q db, db)
  | GetCourse id => (get_course id db, db)
  | CreateCourse b => POST_courses jwt_verify now token b db
  | UpdateCourse id b => PUT_course jwt_verify token id b db
  | DeleteCourse id => DELETE_course jwt_verify token id db
  | AddResource id b => POST_resource jwt_verify now token id b db
  | DeleteResource id => DELETE_resource jwt_verify token id db
  | AddComment id b => POST_comment jwt_verify now token id b db
  | DeleteComment id => DELETE_comment jwt_verify token id db
  end.

(** The store after a sequence of requests. *)
Definition run (arrivals : list Arrival) (db : Db) : Db :=
  foldl (λ db a, (serve a db).2) db arrivals.

End Server.

(** ** The current account *)

Section Me.

Variable jwt_verify : string → option Claim.

(** GET /auth/me: the account the [token] cookie stands for, read from the
    accounts table.  A token that does not verify throws, and the handler
    catches it. *)
Definition me (token : option string) (db : Db) : Response :=
  if falsy token then reply 401 (JMessage "Neautorizat")
  else
    match jwt_verify (default "" token) with
    | None => reply 401 (JMessage "Neautorizat")
    | Some payload =>
        let userId := sub payload in
        if negb (Str.truthy userId) then reply 401 (JMessage "Neautorizat")
        else
          match users db !! userId with
          | None => reply 401 (JMessage "Neautorizat")
          | Some user =>
              send (JUser userId (user_email user) (user_name user) (user_role user))
          end
    end.

End Me.

(** ** The seed script *)

(** [user.upsert({ where: { email }, update, create })] *)
Definition user_upsert (email : string) (update : User → User) (create : User) (db : Db)
  : string * User * Db :=
  match Prisma.user_findUnique_email email db with
  | Some (id, u) =>
      (id, update u,
       {| users := <[id := update u]> (users db); courses := courses db;
          resources := resources db; comments := comments db |})
  | None =>
      let '(id, db') := Prisma.user_create create db in (id, create, db')
  end.

Section Seed.

Variable bcrypt_hash : string → nat → string.

(** [main] of the seed script: the test professor, one course with two
    links, one comment.  [now] is the time of the course statement,
    [later] that of the comment; [None] is a statement the database
    refuses. *)
Definition seed (now later : Z) (db : Db) : option Db :=
  let email := "prof@test.com" in
  let name := "Test Profesor" in
  let plainPassword := "test1234" in
  let passwordHash := bcrypt_hash plainPassword 10 in
  let '(professor_id, _, db) :=
    user_upsert email
      (λ u, {| user_email := user_email u; user_name := name;
               user_password := passwordHash; user_role := PROFESSOR |})
      {| user_email := email; user_name := name;
         user_password := passwordHash; user_role := PROFESSOR |} db in
  '(course_id, _, db) ←
    Prisma.course_create now "Introducere in Web Development"
      "Un curs scurt despre HTML, CSS si JavaScript." "Web" professor_id db;
  '(_, _, db) ←
    Prisma.resource_create now "Ghid HTML"
      "https://developer.mozilla.org/en-US/docs/Web/HTML" LINK course_id db;
  '(_, _, db) ←
    Prisma.resource_create now "CSS Basics"
      "https://developer.mozilla.org/en-US/docs/Web/CSS" LINK course_id db;
  '(_, _, db) ←
    Prisma.comment_create later "Cursul e clar si bine structurat."
      course_id professor_id db;
  Some db.

End Seed.

(** The account and the course the seed leaves behind. *)
Definition seeded_professor (hash : string → nat → string) : User :=
  {| user_email := "prof@test.com"; user_name := "Test Profesor";
     user_password := hash "test1234" 10; user_role := PROFESSOR |}.

Definition seeded_course (now : Z) (owner : string) : Course :=
  {| course_title := "Introducere in Web Development";
     course_description := "Un curs scurt despre HTML, CSS si JavaScript.";
     course_category := "Web"; course_createdAt := now; course_ownerId := owner |}.

(** ** Invariants of the store *)

(** No two accounts share an email. *)
Definition unique_emails (db : Db) : Prop :=
  ∀ i j u v, users db !! i = Some u → users db !! j = Some v →
             user_email u = user_email v → i = j.

(** A text that is not empty and has no white space around it. *)
Definition tidy_text (s : string) : Prop := s ≠ "" ∧ Str.trim s = s.

(** Every text the course routes store is tidy, and every account has an
    email and a name. *)
Definition tidy (db : Db) : Prop :=
  map_Forall (λ _ u, user_email u ≠ "" ∧ user_name u ≠ "") (users db) ∧
  map_Forall (λ _ c, tidy_text (course_title c) ∧ tidy_text (course_description c)
                     ∧ tidy_text (course_category c)) (courses db) ∧
  map_Forall (λ _ r, tidy_text (resource_title r) ∧ tidy_text (resource_url r))
    (resources db) ∧
  map_Forall (λ _ m, tidy_text (comment_content m)) (comments db).


(** The reply is one of the two successes the handlers send. *)
Definition succeeded (r : Response) : Prop := status r = 200 ∨ status r = 201.

(** ** What the specification calls blank, and its filters *)

(** A required field is blank when it is missing or the empty string. *)
Definition blank (v : option string) : Prop := v = None ∨ v = Some "".



(** No account has this email. *)
Definition no_account (email : string) (db : Db) : Prop :=
  ∀ id u, users db !! id = Some u → user_email u ≠ email.



(** [v] is the value of a field the body of an update provides. *)
Definition provided (b : option CourseBody) (v : string) : Prop :=
  field cb_title b = Some v ∨ field cb_description b = Some v ∨ field cb_category b = Some v.



(** The courses of a listing reply, in the order of the reply. *)
Definition listed (r : Response) : list CourseSummary :=
  match body r with
  | JCourses l => l
  | _ => []
  end.


(** The detail a reply carries, when it carries one. *)
Definition detail (r : Response) : option CourseDetail :=
  match body r with
  | JCourseDetail d => Some d
  | _ => None
  end.

(** ** A small database and its callers, for concrete runs *)

Module Sample.

Definition hash (password : string) (rounds : nat) : string := "h:" +:+ password.
Definition compare (password h : string) : bool := bool_decide (h = "h:" +:+ password).
Definition sign (c : Claim) : string := "token-of-" +:+ sub c.

Definition professor : User :=
  {| user_email := "prof@test.com"; user_name := "Test Profesor";
     user_password := "h:test1234"; user_role := PROFESSOR |}.
Definition student : User :=
  {| user_email := "stud@test.com"; user_name := "Student";
     user_password := "h:abcd"; user_role := STUDENT |}.

Definition web : Course :=
  {| course_title := "Introducere in Web Development";
     course_description := "Un curs scurt despre HTML, CSS si JavaScript.";
     course_category := "Web"; course_createdAt := 100; course_ownerId := "u1" |}.
Definition data : Course :=
  {| course_title := "Baze de date"; course_description := "SQL si modelare";
     course_category := "Data"; course_createdAt := 200; course_ownerId := "u1" |}.
Definition net : Course :=
  {| course_title := "Retele"; course_description := "Protocoale web";
     course_category := "Net"; course_createdAt := 150; course_ownerId := "u1" |}.

Definition db : Db :=
  {| users := <["u1" := professor]> (<["u2" := student]> ∅);
     courses := <["c1" := web]> (<["c2" := data]> (<["c3" := net]> ∅));
     resources :=
       <["r1" := mkResource "Ghid HTML" "https://developer.mozilla.org/HTML" LINK 110 "c1"]>
       (<["r2" := mkResource "CSS Basics" "https://developer.mozilla.org/CSS" LINK 120 "c1"]> ∅);
     comments :=
       <["m1" := mkComment "Cursul e clar si bine structurat." 130 "c1" "u2"]> ∅ |}.

Definition professor_claim : Claim :=
  {| sub := "u1"; claim_email := "prof@test.com"; claim_name := "Test Profesor";
     claim_role := PROFESSOR |}.
Definition student_claim : Claim :=
  {| sub := "u2"; claim_email := "stud@test.com"; claim_name := "Student";
     claim_role := STUDENT |}.

Definition verify (token : string) : option Claim :=
  if bool_decide (token = "token-of-u1") then Some professor_claim
  else if bool_decide (token = "token-of-u2") then Some student_claim
  else None.

End Sample.

(** * Properties *)

(** ** Strings *)

Example trim_web : Str.trim "  web " = "web".
Proof. reflexivity. Qed.

Example trim_inner : Str.trim " a b  " = "a b".
Proof. reflexivity. Qed.

Example trim_spaces : Str.trim "   " = "".
Proof. reflexivity. Qed.

Example includes_web :
  Str.includes (Str.lower "WEB") (Str.lower "Introducere in Web Development") = true.
Proof. reflexivity. Qed.

Lemma truthy_true s : Str.truthy s = true ↔ s ≠ "".
Proof.
  unfold Str.truthy. rewrite negb_true_iff, bool_decide_eq_false. done.
Qed.

Lemma truthy_false s : Str.truthy s = false ↔ s = "".
Proof.
  unfold Str.truthy. rewrite negb_false_iff, bool_decide_eq_true. done.
Qed.

Lemma falsy_blank v : falsy v = true ↔ blank v.
Proof.
  unfold falsy, blank. destruct v as [s|]; simpl.
  - rewrite negb_true_iff, truthy_false. split.
    + intros ->. by right.
    + intros [?|?]; by simplify_eq.
  - split; [by left | done].
Qed.

Lemma falsy_Some s : falsy (Some s) = false ↔ s ≠ "".
Proof. unfold falsy; simpl. rewrite negb_false_iff. apply truthy_true. Qed.



(** ** Accounts: lookup by email *)

Lemma user_findUnique_email_Some email db id u :
  Prisma.user_findUnique_email email db = Some (id, u) →
  users db !! id = Some u ∧ user_email u = email.
Proof.
  unfold Prisma.user_findUnique_email. intros H.
  apply head_Some_elem_of, list_elem_of_filter in H as [He Hin].
  apply elem_of_map_to_list in Hin. done.
Qed.

Lemma user_findUnique_email_None email db :
  Prisma.user_findUnique_email email db = None ↔
  ∀ id u, users db !! id = Some u → user_email u ≠ email.
Proof.
  unfold Prisma.user_findUnique_email. rewrite head_None. split.
  - intros Hnil id u Hu He.
    apply (filter_nil_not_elem_of _ _ (id, u)) in Hnil; [|done].
    apply Hnil, elem_of_map_to_list. done.
  - intros Hno. destruct (filter _ _) as [|[id u] l] eqn:Hf; [done|].
    assert (Hin : (id, u) ∈ filter (λ r, user_email r.2 = email) (map_to_list (users db))).
    { rewrite Hf. left. }
    apply list_elem_of_filter in Hin as [He Hin].
    apply elem_of_map_to_list in Hin. by destruct (Hno id u).
Qed.

Lemma user_findUnique_email_is_Some email db id u :
  users db !! id = Some u → user_email u = email →
  is_Some (Prisma.user_findUnique_email email db).
Proof.
  intros Hu He.
  destruct (Prisma.user_findUnique_email email db) eqn:Hf; [eauto|].
  rewrite user_findUnique_email_None in Hf. by destruct (Hf id u).
Qed.

(** The two accounts of the sample database. *)
Lemma sample_users id u :
  users Sample.db !! id = Some u →
  (id = "u1" ∧ u = Sample.professor) ∨ (id = "u2" ∧ u = Sample.student).
Proof.
  unfold Sample.db; simpl. rewrite !lookup_insert, lookup_empty.
  repeat case_decide; intros Hu; simplify_eq; auto.
Qed.

(** ** Registration *)

(** Every reply of [register] other than 201 leaves the accounts as they
    were. *)
Lemma register_failure_keeps_db hash b db :
  status (register hash b db).1 ≠ 201 → (register hash b db).2 = db.
Proof.
  unfold register.
  destruct (falsy _ || falsy _ || falsy _); [done|].
  destruct (Prisma.user_findUnique_email _ db); [done|].
  simpl. done.
Qed.

(** A successful registration stores an account under the email of the
    request. *)
Lemma register_created hash b db r db' :
  register hash b db = (r, db') → status r = 201 →
  ∃ email, field rb_email b = Some email ∧ email ≠ "" ∧
    is_Some (Prisma.user_findUnique_email email db').
Proof.
  unfold register. intros H Hs.
  destruct (falsy (field rb_email b)) eqn:He; simpl in H; [by simplify_eq|].
  destruct (falsy (field rb_password b) || falsy (field rb_name b)); [by simplify_eq|].
  destruct (field rb_email b) as [email|] eqn:Hemail; [|done].
  apply falsy_Some in He. simpl in H.
  destruct (Prisma.user_findUnique_email email db); [by simplify_eq|].
  simpl in H. simplify_eq. exists email. split_and!; [done..|].
  eapply user_findUnique_email_is_Some; simpl; [apply lookup_insert_eq | done].
Qed.

(** C6: a register request in which the email, the password or the name is
    blank (missing or empty) is answered 400 InvalidInput, and the accounts
    are unchanged. *)
Theorem register_blank_field_invalid
    (hash : string → nat → string) (b : option RegisterBody) (db : Db) :
  blank (field rb_email b) ∨ blank (field rb_password b) ∨ blank (field rb_name b) →
  register hash b db = (reply 400 (JMessage "email, password, name sunt obligatorii"), db).
Proof.
  intros H. unfold register.
  assert (falsy (field rb_email b) || falsy (field rb_password b)
          || falsy (field rb_name b) = true) as ->; [|done].
  rewrite !orb_true_iff, !falsy_blank. tauto.
Qed.

Lemma register_blank_field_invalid_witness :
  let b := Some {| rb_email := Some "new@test.com"; rb_password := Some "";
                   rb_name := Some "Ana"; rb_role := None |} in
  blank (field rb_password b) ∧
  register Sample.hash b Sample.db
  = (reply 400 (JMessage "email, password, name sunt obligatorii"), Sample.db).
Proof.
  split; [right; reflexivity|].
  apply (register_blank_field_invalid Sample.hash). right. left. right. reflexivity.
Defined.

(** Without a body at all the three fields are missing. *)
Example register_no_body :
  register Sample.hash None Sample.db
  = (reply 400 (JMessage "email, password, name sunt obligatorii"), Sample.db).
Proof. reflexivity. Qed.

(** Fields are not trimmed by [register]: a name of one space is stored. *)
Example register_space_name :
  (register Sample.hash
     (Some {| rb_email := Some "new@test.com"; rb_password := Some "secret";
              rb_name := Some " "; rb_role := None |}) Sample.db).1
  = reply 201 (JUser "0" "new@test.com" " " STUDENT).
Proof. vm_compute. reflexivity. Qed.

(** The second of two registrations with one email, read as the
    specification has it (409 whatever the other fields), fails when the
    second request leaves the name empty: the reply is 400. *)
Lemma register_twice_empty_name_not_conflict :
  let first := Some {| rb_email := Some "new@test.com"; rb_password := Some "secret";
                       rb_name := Some "Ana"; rb_role := None |} in
  let second := Some {| rb_email := Some "new@test.com"; rb_password := Some "secret";
                        rb_name := Some ""; rb_role := None |} in
  status (register Sample.hash first Sample.db).1 = 201 ∧
  ¬ status (register Sample.hash second (register Sample.hash first Sample.db).2).1 = 409.
Proof. vm_compute. split; [reflexivity | discriminate]. Qed.

(** C7 (amended): when a registration has succeeded, a second one with the
    same email creates no account whatever its other fields; it is answered
    409 Conflict when its password and name are not blank, and 400
    InvalidInput when one of them is. *)
Theorem register_twice_same_email
    (hash : string → nat → string) (b1 b2 : option RegisterBody) (db db1 : Db) (r1 : Response) :
  register hash b1 db = (r1, db1) →
  status r1 = 201 →
  field rb_email b2 = field rb_email b1 →
  (register hash b2 db1).2 = db1 ∧
  (¬ blank (field rb_password b2) → ¬ blank (field rb_name b2) →
     (register hash b2 db1).1 = reply 409 (JMessage "Email deja folosit")) ∧
  (blank (field rb_password b2) ∨ blank (field rb_name b2) →
     (register hash b2 db1).1 = reply 400 (JMessage "email, password, name sunt obligatorii")).
Proof.
  intros H1 Hs He.
  destruct (register_created _ _ _ _ _ H1 Hs) as (email & Hemail & Hne & [row Hrow]).
  split_and!.
  - apply register_failure_keeps_db. unfold register.
    destruct (falsy _ || falsy _ || falsy _); [done|].
    rewrite He, Hemail. simpl. by rewrite Hrow.
  - intros Hp Hn. unfold register.
    rewrite <-falsy_blank, not_true_iff_false in Hp, Hn.
    rewrite He, Hemail, Hp, Hn. rewrite (proj2 (falsy_Some email) Hne).
    simpl. by rewrite Hrow.
  - intros Hb. unfold register.
    assert (falsy (field rb_email b2) || falsy (field rb_password b2)
            || falsy (field rb_name b2) = true) as ->; [|done].
    rewrite !orb_true_iff, !falsy_blank. tauto.
Qed.

Lemma register_twice_same_email_witness :
  let first := Some {| rb_email := Some "new@test.com"; rb_password := Some "secret";
                       rb_name := Some "Ana"; rb_role := None |} in
  let second := Some {| rb_email := Some "new@test.com"; rb_password := Some "other";
                        rb_name := Some "Ion"; rb_role := Some "PROFESSOR" |} in
  let db1 := (register Sample.hash first Sample.db).2 in
  (register Sample.hash second db1).2 = db1 ∧
  (register Sample.hash second db1).1 = reply 409 (JMessage "Email deja folosit").
Proof.
  intros first second db1.
  destruct (register_twice_same_email Sample.hash first second Sample.db db1
              (register Sample.hash first Sample.db).1) as (Hdb & Hconflict & _).
  - apply surjective_pairing.
  - vm_compute. reflexivity.
  - reflexivity.
  - split; [exact Hdb|]. apply Hconflict.
    + intros [H|H]; discriminate H.
    + intros [H|H]; discriminate H.
Defined.

(** ** Login *)




(** ** Course routes: existence, ownership, validation *)

Section RouteProperties.

Variable jwt_verify : string → option Claim.

Abbreviation PUT := (PUT_course jwt_verify).
Abbreviation DELETE := (DELETE_course jwt_verify).

Lemma route_authenticated token user handler db :
  authenticate jwt_verify token = inr user →
  route jwt_verify token handler db = handler user db.
Proof. unfold route. by intros ->. Qed.

Lemma route_unauthenticated token stop handler db :
  authenticate jwt_verify token = inl stop →
  route jwt_verify token handler db = (reply 401 (JMessage "Neautorizat"), db).
Proof.
  unfold route. intros H. rewrite H. unfold authenticate in H.
  destruct (token ≫= jwt_verify); by simplify_eq.
Qed.

(** The data of an update is built only from fields that are not empty
    once trimmed. *)
Lemma put_data_inr b data :
  put_data b = inr data → ∀ v, provided b v → Str.trim v ≠ "".
Proof.
  unfold put_data, provided, mbind, reply_bind. intros H v Hv.
  destruct (field cb_title b) as [t|];
    [destruct (Str.truthy (Str.trim t)) eqn:Ht; simpl in H; [|done]|];
    (destruct (field cb_description b) as [d|];
     [destruct (Str.truthy (Str.trim d)) eqn:Hd; simpl in H; [|done]|]);
    (destruct (field cb_category b) as [c|];
     [destruct (Str.truthy (Str.trim c)) eqn:Hc; simpl in H; [|done]|]);
    rewrite ?truthy_true in *;
    destruct Hv as [Hv|[Hv|Hv]]; by simplify_eq.
Qed.

(** A request stopped by the validation of an update is answered 400. *)
Lemma put_data_inl b stop : put_data b = inl stop → status stop = 400.
Proof.
  unfold put_data, mbind, reply_bind. intros H.
  destruct (field cb_title b) as [t|];
    [destruct (Str.truthy (Str.trim t)); simpl in H; [|by simplify_eq]|];
    (destruct (field cb_description b) as [d|];
     [destruct (Str.truthy (Str.trim d)); simpl in H; [|by simplify_eq]|]);
    (destruct (field cb_category b) as [c|];
     [destruct (Str.truthy (Str.trim c)); simpl in H; [|by simplify_eq]|]);
    by simplify_eq.
Qed.

Lemma course_update_Some id data db c :
  courses db !! id = Some c →
  ∃ db', Prisma.course_update id data db = Some (Prisma.apply_data data c, db').
Proof. unfold Prisma.course_update. intros ->. eauto. Qed.

(** C3: POST /courses by an authenticated caller whose claim has role
    STUDENT is answered 403 Forbidden and creates no course, whatever the
    body: the role is decided before any field is looked at. *)
Theorem student_post_courses_forbidden
    (now : Z) (token : option string) (user : Claim) (b : option CourseBody) (db : Db) :
  authenticate jwt_verify token = inr user →
  claim_role user = STUDENT →
  POST_courses jwt_verify now token b db
  = (reply 403 (JMessage "Doar profesorii pot crea sau modifica cursuri"), db).
Proof.
  intros Hauth Hrole. unfold POST_courses.
  rewrite (route_authenticated _ user) by done.
  unfold post_courses, requireProfessor; simpl. rewrite Hrole. done.
Qed.

(** C4: on an existing course, PUT /courses/:id and DELETE /courses/:id
    by an authenticated caller whose claim id is not the course's owner
    id are answered 403 Forbidden and change nothing, whatever the
    body. *)
Theorem non_owner_forbidden
    (token : option string) (user : Claim) (id : string) (course : Course) (db : Db) :
  authenticate jwt_verify token = inr user →
  courses db !! id = Some course →
  sub user ≠ course_ownerId course →
  (∀ b, PUT token id b db = (reply 403 (JMessage "Nu ai acces la acest curs"), db)) ∧
  DELETE token id db = (reply 403 (JMessage "Nu ai acces la acest curs"), db).
Proof.
  intros Hauth Hc Hne. split; [intros b|].
  - unfold PUT_course. rewrite (route_authenticated _ user) by done.
    unfold put_course, Prisma.course_findUnique. rewrite Hc.
    rewrite bool_decide_eq_true_2; [done | congruence].
  - unfold DELETE_course. rewrite (route_authenticated _ user) by done.
    unfold delete_course, Prisma.course_findUnique. rewrite Hc.
    rewrite bool_decide_eq_true_2; [done | congruence].
Qed.

(** C2: for PUT /courses/:id, DELETE /courses/:id, POST
    /courses/:id/resources and DELETE /comments/:id by an authenticated
    caller, an id under which nothing is stored is answered 404 NotFound
    with the store unchanged, whoever the caller is; and the ownership
    verdict, 403, is only ever given about an entity that exists. *)
Theorem missing_entity_not_found
    (token : option string) (user : Claim) (id : string) (db : Db) :
  authenticate jwt_verify token = inr user →
  (courses db !! id = None →
     (∀ b, PUT token id b db = (reply 404 (JMessage "Curs inexistent"), db)) ∧
     DELETE token id db = (reply 404 (JMessage "Curs inexistent"), db) ∧
     (∀ now b, POST_resource jwt_verify now token id b db
               = (reply 404 (JMessage "Curs inexistent"), db))) ∧
  (comments db !! id = None →
     DELETE_comment jwt_verify token id db
     = (reply 404 (JMessage "Comentariu inexistent"), db)) ∧
  ((∀ b, status (PUT token id b db).1 = 403 → is_Some (courses db !! id)) ∧
   (status (DELETE token id db).1 = 403 → is_Some (courses db !! id)) ∧
   (∀ now b, status (POST_resource jwt_verify now token id b db).1 = 403 →
             is_Some (courses db !! id)) ∧
   (status (DELETE_comment jwt_verify token id db).1 = 403 →
    is_Some (comments db !! id))).
Proof.
  intros Hauth.
  unfold PUT_course, DELETE_course, POST_resource, DELETE_comment.
  split_and!.
  - intros Hc. split_and!; intros; rewrite (route_authenticated _ user) by done;
      unfold put_course, delete_course, post_resource, Prisma.course_findUnique;
      by rewrite Hc.
  - intros Hm. rewrite (route_authenticated _ user) by done.
    unfold delete_comment, Prisma.comment_findUnique. by rewrite Hm.
  - intros b. rewrite (route_authenticated _ user) by done.
    unfold put_course, Prisma.course_findUnique.
    destruct (courses db !! id); [eauto | discriminate].
  - rewrite (route_authenticated _ user) by done.
    unfold delete_course, Prisma.course_findUnique.
    destruct (courses db !! id); [eauto | discriminate].
  - intros now b. rewrite (route_authenticated _ user) by done.
    unfold post_resource, Prisma.course_findUnique.
    destruct (courses db !! id); [eauto | discriminate].
  - rewrite (route_authenticated _ user) by done.
    unfold delete_comment, Prisma.comment_findUnique.
    destruct (comments db !! id); [eauto | discriminate].
Qed.

(** C9: PUT /courses/:id validates every provided field before its one
    update: whenever it answers 400, and whenever some provided field is
    empty once trimmed (even if other provided fields are valid), the
    store, and so the title, description and category of the course, is
    unchanged. *)
Theorem put_invalid_input_atomic
    (token : option string) (id : string) (b : option CourseBody) (db : Db) :
  status (PUT token id b db).1 = 400 ∨ (∃ v, provided b v ∧ Str.trim v = "") →
  (PUT token id b db).2 = db ∧
  courses (PUT token id b db).2 !! id = courses db !! id.
Proof.
  intros H.
  assert (Hdb : (PUT token id b db).2 = db); [|by rewrite Hdb].
  unfold PUT_course, route in *.
  destruct (authenticate jwt_verify token) as [stop|user]; [done|].
  unfold put_course, Prisma.course_findUnique in *.
  destruct (courses db !! id) as [c|] eqn:Hc; [|done].
  destruct (bool_decide (course_ownerId c ≠ sub user)); [done|].
  destruct (put_data b) as [stop|data] eqn:Hdata; [done|].
  destruct (course_update_Some id data db c Hc) as [db' Hup].
  rewrite Hup in *. simpl in *.
  destruct H as [H|(v & Hv & Hblank)]; [done|].
  by destruct (put_data_inr _ _ Hdata v Hv).
Qed.

End RouteProperties.

Lemma student_post_courses_forbidden_witness :
  let blank_body := Some {| cb_title := Some ""; cb_description := None;
                            cb_category := Some "  " |} in
  claim_role Sample.student_claim = STUDENT ∧
  POST_courses Sample.verify 500 (Some "token-of-u2") blank_body Sample.db
  = (reply 403 (JMessage "Doar profesorii pot crea sau modifica cursuri"), Sample.db).
Proof.
  split; [reflexivity|].
  apply (student_post_courses_forbidden Sample.verify 500 (Some "token-of-u2")
           Sample.student_claim); reflexivity.
Defined.

Lemma non_owner_forbidden_witness :
  sub Sample.student_claim ≠ course_ownerId Sample.web ∧
  (∀ b, PUT_course Sample.verify (Some "token-of-u2") "c1" b Sample.db
        = (reply 403 (JMessage "Nu ai acces la acest curs"), Sample.db)) ∧
  DELETE_course Sample.verify (Some "token-of-u2") "c1" Sample.db
  = (reply 403 (JMessage "Nu ai acces la acest curs"), Sample.db).
Proof.
  split; [discriminate|].
  apply (non_owner_forbidden Sample.verify (Some "token-of-u2") Sample.student_claim
           "c1" Sample.web Sample.db).
  - reflexivity.
  - vm_compute. reflexivity.
  - discriminate.
Defined.

Lemma missing_entity_not_found_witness :
  courses Sample.db !! "c9" = None ∧
  (∀ b, PUT_course Sample.verify (Some "token-of-u1") "c9" b Sample.db
        = (reply 404 (JMessage "Curs inexistent"), Sample.db)) ∧
  DELETE_comment Sample.verify (Some "token-of-u1") "c9" Sample.db
  = (reply 404 (JMessage "Comentariu inexistent"), Sample.db).
Proof.
  assert (Hc : courses Sample.db !! "c9" = None) by (vm_compute; reflexivity).
  assert (Hm : comments Sample.db !! "c9" = None) by (vm_compute; reflexivity).
  destruct (missing_entity_not_found Sample.verify (Some "token-of-u1")
              Sample.professor_claim "c9" Sample.db) as (Hcourse & Hcomment & _).
  - reflexivity.
  - split_and!; [exact Hc | apply (Hcourse Hc) | apply (Hcomment Hm)].
Defined.

Lemma put_invalid_input_atomic_witness :
  let b := Some {| cb_title := Some "Titlu nou"; cb_description := Some "   ";
                   cb_category := None |} in
  status (PUT_course Sample.verify (Some "token-of-u1") "c1" b Sample.db).1 = 400 ∧
  (PUT_course Sample.verify (Some "token-of-u1") "c1" b Sample.db).2 = Sample.db ∧
  courses (PUT_course Sample.verify (Some "token-of-u1") "c1" b Sample.db).2 !! "c1"
  = Some Sample.web.
Proof.
  intros b.
  assert (Hs : status (PUT_course Sample.verify (Some "token-of-u1") "c1" b Sample.db).1 = 400)
    by (vm_compute; reflexivity).
  destruct (put_invalid_input_atomic Sample.verify (Some "token-of-u1") "c1" b Sample.db)
    as [Hdb Hcourse]; [by left|].
  split_and!; [exact Hs | exact Hdb |].
  rewrite Hcourse. vm_compute. reflexivity.
Defined.

(** The owner's update with valid fields does change the course. *)
Example put_valid_updates :
  (PUT_course Sample.verify (Some "token-of-u1") "c1"
     (Some {| cb_title := Some " Titlu nou "; cb_description := None;
              cb_category := None |}) Sample.db).1
  = send (JCourse "c1"
            {| course_title := "Titlu nou";
               course_description := course_description Sample.web;
               course_category := "Web"; course_createdAt := 100;
               course_ownerId := "u1" |}).
Proof. vm_compute. reflexivity. Qed.

(** ** Listing and detail *)










(** The listing of the sample database for a search with spaces around
    it. *)
Example listing_search_web :
  cs_id <$> listed (get_courses {| q_search := Some " WEB "; q_category := None |} Sample.db)
  = ["c3"; "c1"].
Proof. vm_compute. reflexivity. Qed.

Example listing_search_and_category :
  cs_id <$> listed (get_courses {| q_search := Some "web"; q_category := Some "NET" |} Sample.db)
  = ["c3"].
Proof. vm_compute. reflexivity. Qed.


Lemma user_ref_Some id u db :
  users db !! id = Some u → Prisma.user_ref id db = Some (id, user_name u).
Proof. unfold Prisma.user_ref. by intros ->. Qed.

Lemma resources_of_elem_of courseId db rid r :
  (rid, r) ∈ Prisma.resources_of courseId db ↔
  resources db !! rid = Some r ∧ resource_courseId r = courseId.
Proof.
  unfold Prisma.resources_of.
  rewrite list_elem_of_filter, elem_of_map_to_list. simpl. tauto.
Qed.

Lemma comments_of_elem_of courseId db mid m :
  (mid, m) ∈ Prisma.comments_of courseId db ↔
  comments db !! mid = Some m ∧ comment_courseId m = courseId.
Proof.
  unfold Prisma.comments_of.
  rewrite list_elem_of_filter, elem_of_map_to_list. simpl. tauto.
Qed.

(** C8: GET /courses/:id on an existing course of a database that keeps
    its foreign keys replies 200 with the course, the id and name of its
    owner, all of its resources and only them, newest first by creation
    time, and all of its comments and only them, newest first by creation
    time, each with the id and name of its author. *)
Theorem course_detail_complete (id : string) (c : Course) (db : Db) :
  courses db !! id = Some c →
  foreign_keys db →
  ∃ d owner,
    get_course id db = send (JCourseDetail d) ∧
    cd_id d = id ∧ cd_course d = c ∧
    users db !! course_ownerId c = Some owner ∧
    cd_owner d = Some (course_ownerId c, user_name owner) ∧
    (∀ rid r, (rid, r) ∈ cd_resources d ↔
              resources db !! rid = Some r ∧ resource_courseId r = id) ∧
    NoDup (cd_resources d).*1 ∧
    StronglySorted (desc (λ r, resource_createdAt r.2)) (cd_resources d) ∧
    (∀ mid m, (∃ v, v ∈ cd_comments d ∧ cv_id v = mid ∧ cv_comment v = m) ↔
              comments db !! mid = Some m ∧ comment_courseId m = id) ∧
    NoDup (cv_id <$> cd_comments d) ∧
    StronglySorted (desc (λ v, comment_createdAt (cv_comment v))) (cd_comments d) ∧
    (∀ v, v ∈ cd_comments d →
          ∃ author, users db !! comment_userId (cv_comment v) = Some author ∧
                    cv_user v = Some (comment_userId (cv_comment v), user_name author)).
Proof.
  intros Hc (Hown & _ & Hcom).
  destruct (Hown id c Hc) as [owner Howner].
  unfold get_course, Prisma.course_findUnique_detail. rewrite Hc. simpl.
  eexists _, owner. split; [reflexivity|]. simpl.
  split_and!; try done.
  - by apply user_ref_Some.
  - intros rid r. by rewrite merge_sort_Permutation, resources_of_elem_of.
  - rewrite merge_sort_Permutation.
    apply (sublist_NoDup _ (map_to_list (resources db)).*1).
    + apply NoDup_fst_map_to_list.
    + apply fmap_sublist, sublist_filter.
  - apply StronglySorted_merge_sort; apply _.
  - intros mid m. rewrite <-comments_of_elem_of. split.
    + intros (v & Hv & <- & <-).
      apply list_elem_of_fmap in Hv as ([mid m] & -> & Hin).
      by rewrite merge_sort_Permutation in Hin.
    + intros Hin. exists (Prisma.comment_view db (mid, m)). split; [|done].
      apply list_elem_of_fmap_2. by rewrite merge_sort_Permutation.
  - rewrite <-list_fmap_compose, merge_sort_Permutation.
    apply (sublist_NoDup _ (map_to_list (comments db)).*1).
    + apply NoDup_fst_map_to_list.
    + apply fmap_sublist, sublist_filter.
  - eapply StronglySorted_fmap; [|apply StronglySorted_merge_sort; apply _].
    done.
  - intros v Hv. apply list_elem_of_fmap in Hv as ([mid m] & -> & Hin).
    rewrite merge_sort_Permutation in Hin.
    apply comments_of_elem_of in Hin as [Hm _].
    destruct (Hcom mid m Hm) as [_ [author Hauthor]].
    exists author. split; [done|]. by apply user_ref_Some.
Qed.

Lemma course_detail_complete_witness :
  foreign_keys Sample.db ∧
  ∃ d, get_course "c1" Sample.db = send (JCourseDetail d) ∧
       cd_owner d = Some ("u1", "Test Profesor") ∧
       (cd_resources d).*1 = ["r2"; "r1"] ∧
       cv_user <$> cd_comments d = [Some ("u2", "Student")].
Proof.
  assert (Hfk : foreign_keys Sample.db).
  { apply (bool_decide_unpack _). vm_compute. exact I. }
  split; [exact Hfk|].
  destruct (course_detail_complete "c1" Sample.web Sample.db) as (d & owner & Hd & _).
  - vm_compute. reflexivity.
  - exact Hfk.
  - exists d. split; [exact Hd|].
    vm_compute in Hd. injection Hd as <-. vm_compute. done.
Defined.

(** A course id under which nothing is stored is answered 404. *)
Example course_detail_missing :
  get_course "c9" Sample.db = reply 404 (JMessage "Curs inexistent").
Proof. vm_compute. reflexivity. Qed.

(** ** The foreign keys hold in every store the server reaches *)

Lemma is_Some_insert_mono {V} (m : gmap string V) i j x :
  is_Some (m !! j) → is_Some (<[i := x]> m !! j).
Proof. rewrite lookup_insert_is_Some'. auto. Qed.

Lemma foreign_keys_empty : foreign_keys (mkDb ∅ ∅ ∅ ∅).
Proof. split_and!; apply map_Forall_empty. Qed.

Lemma user_create_foreign_keys u db :
  foreign_keys db → foreign_keys (Prisma.user_create u db).2.
Proof.
  intros (Hc & Hr & Hm). split_and!; simpl; [|done|].
  - eapply map_Forall_impl; [exact Hc|]. intros ???. by apply is_Some_insert_mono.
  - eapply map_Forall_impl; [exact Hm|]. intros ?? [??].
    split; [done|]. by apply is_Some_insert_mono.
Qed.

Lemma course_create_foreign_keys now t d c o db id row db' :
  Prisma.course_create now t d c o db = Some (id, row, db') →
  foreign_keys db → foreign_keys db'.
Proof.
  unfold Prisma.course_create. intros H (Hc & Hr & Hm).
  destruct (users db !! o) eqn:Ho; [|done]. simplify_eq.
  split_and!; simpl.
  - apply map_Forall_insert_2; [simpl; by rewrite Ho|done].
  - eapply map_Forall_impl; [exact Hr|]. intros ???. by apply is_Some_insert_mono.
  - eapply map_Forall_impl; [exact Hm|]. intros ?? [??].
    split; [|done]. by apply is_Some_insert_mono.
Qed.

Lemma course_update_foreign_keys id data db row db' :
  Prisma.course_update id data db = Some (row, db') →
  foreign_keys db → foreign_keys db'.
Proof.
  unfold Prisma.course_update. intros H (Hc & Hr & Hm).
  destruct (courses db !! id) as [c|] eqn:Hid; [|done]. simplify_eq.
  split_and!; simpl.
  - apply map_Forall_insert_2; [|done]. exact (Hc id c Hid).
  - eapply map_Forall_impl; [exact Hr|]. intros ???. by apply is_Some_insert_mono.
  - eapply map_Forall_impl; [exact Hm|]. intros ?? [??].
    split; [|done]. by apply is_Some_insert_mono.
Qed.

Lemma course_delete_foreign_keys id db :
  foreign_keys db → foreign_keys (Prisma.course_delete id db).
Proof.
  intros (Hc & Hr & Hm). split_and!; simpl.
  - by apply map_Forall_delete.
  - intros rid r [Hrid Hne]%map_lookup_filter_Some. simpl in *.
    rewrite lookup_delete_ne by done. exact (Hr rid r Hrid).
  - intros mid m [Hmid Hne]%map_lookup_filter_Some. simpl in *.
    rewrite lookup_delete_ne by done. exact (Hm mid m Hmid).
Qed.

Lemma resource_create_foreign_keys now t u ty cid db id row db' :
  Prisma.resource_create now t u ty cid db = Some (id, row, db') →
  foreign_keys db → foreign_keys db'.
Proof.
  unfold Prisma.resource_create. intros H (Hc & Hr & Hm).
  destruct (courses db !! cid) eqn:Hcid; [|done]. simplify_eq.
  split_and!; simpl; [done| |done].
  apply map_Forall_insert_2; [simpl; by rewrite Hcid|done].
Qed.

Lemma comment_create_foreign_keys now t cid uid db id row db' :
  Prisma.comment_create now t cid uid db = Some (id, row, db') →
  foreign_keys db → foreign_keys db'.
Proof.
  unfold Prisma.comment_create. intros H (Hc & Hr & Hm).
  destruct (courses db !! cid) eqn:Hcid; [|done].
  destruct (users db !! uid) eqn:Huid; [|done]. simplify_eq.
  split_and!; simpl; [done..|].
  apply map_Forall_insert_2; [simpl; by rewrite Hcid, Huid|done].
Qed.

Lemma resource_delete_foreign_keys id db :
  foreign_keys db → foreign_keys (Prisma.resource_delete id db).
Proof. intros (Hc & Hr & Hm). split_and!; simpl; [done| |done]. by apply map_Forall_delete. Qed.

Lemma comment_delete_foreign_keys id db :
  foreign_keys db → foreign_keys (Prisma.comment_delete id db).
Proof. intros (Hc & Hr & Hm). split_and!; simpl; [done..|]. by apply map_Forall_delete. Qed.

Section ServerInvariant.

Variable bcrypt_hash : string → nat → string.
Variable bcrypt_compare : string → string → bool.
Variable jwt_sign : Claim → string.
Variable jwt_verify : string → option Claim.

Abbreviation serve' := (serve bcrypt_hash bcrypt_compare jwt_sign jwt_verify).
Abbreviation run' := (run bcrypt_hash bcrypt_compare jwt_sign jwt_verify).

Lemma route_foreign_keys token handler db :
  (∀ user, foreign_keys (handler user db).2) →
  foreign_keys db → foreign_keys (route jwt_verify token handler db).2.
Proof. unfold route. intros Hh Hdb. destruct (authenticate _ _); [done | apply Hh]. Qed.

(** Every request leaves the foreign keys in place. *)
Lemma serve_foreign_keys a db : foreign_keys db → foreign_keys (serve' a db).2.
Proof.
  intros Hdb. unfold serve. destruct (request a); try done.
  - unfold register. repeat case_match; simplify_eq; try done;
    match goal with H : Prisma.user_create ?u db = _ |- _ =>
      pose proof (user_create_foreign_keys u db Hdb) as Hfk; by rewrite H in Hfk end.
  - apply route_foreign_keys; [|done]. intros user. unfold post_courses.
    repeat case_match; simplify_eq; eauto using course_create_foreign_keys.
  - apply route_foreign_keys; [|done]. intros user. unfold put_course.
    repeat case_match; simplify_eq; eauto using course_update_foreign_keys.
  - apply route_foreign_keys; [|done]. intros user. unfold delete_course.
    repeat case_match; simplify_eq; eauto using course_delete_foreign_keys.
  - apply route_foreign_keys; [|done]. intros user. unfold post_resource.
    repeat case_match; simplify_eq; eauto using resource_create_foreign_keys.
  - apply route_foreign_keys; [|done]. intros user. unfold delete_resource.
    repeat case_match; simplify_eq; eauto using resource_delete_foreign_keys.
  - apply route_foreign_keys; [|done]. intros user. unfold post_comment.
    repeat case_match; simplify_eq; eauto using comment_create_foreign_keys.
  - apply route_foreign_keys; [|done]. intros user. unfold delete_comment.
    repeat case_match; simplify_eq; eauto using comment_delete_foreign_keys.
Qed.

(** So does every sequence of requests, from the empty store on. *)
Lemma run_foreign_keys arrivals db : foreign_keys db → foreign_keys (run' arrivals db).
Proof.
  revert db. induction arrivals as [|a arrivals IH]; intros db Hdb; [done|].
  simpl. apply IH, serve_foreign_keys, Hdb.
Qed.

Corollary reachable_foreign_keys arrivals : foreign_keys (run' arrivals (mkDb ∅ ∅ ∅ ∅)).
Proof. apply run_foreign_keys, foreign_keys_empty. Qed.

End ServerInvariant.

(** * Further properties of the handlers *)

(** ** New keys *)

Lemma new_id_fresh {V} (table : gmap string V) : table !! Prisma.new_id table = None.
Proof. apply not_elem_of_dom, is_fresh. Qed.

Lemma new_id_ne {V} (table : gmap string V) id v :
  table !! id = Some v → Prisma.new_id table ≠ id.
Proof. intros Hid Heq. rewrite <-Heq, new_id_fresh in Hid. discriminate. Qed.

(** ** Registration and login, end to end *)

(** When no account has the email, the lookup by email after the account
    has been stored finds that account and no other. *)
Lemma user_findUnique_email_insert email db id u :
  no_account email db → user_email u = email →
  Prisma.user_findUnique_email email
    {| users := <[id := u]> (users db); courses := courses db;
       resources := resources db; comments := comments db |}
  = Some (id, u).
Proof.
  intros Hno He.
  destruct (Prisma.user_findUnique_email email _) as [[id' u']|] eqn:Hf.
  - apply user_findUnique_email_Some in Hf as [Hu' He']. simpl in Hu'.
    rewrite lookup_insert in Hu'. case_decide; simplify_eq; [done|].
    by destruct (Hno id' u').
  - rewrite user_findUnique_email_None in Hf.
    destruct (Hf id u); [simpl; apply lookup_insert_eq | done].
Qed.

(** The reply and the store of a registration that passes both checks. *)
Lemma register_new_account
    (hash : string → nat → string) (email password name : string)
    (role : option string) (db : Db) :
  email ≠ "" → password ≠ "" → name ≠ "" →
  no_account email db →
  let r := if bool_decide (role = Some "PROFESSOR") then PROFESSOR else STUDENT in
  let id := Prisma.new_id (users db) in
  register hash
    (Some {| rb_email := Some email; rb_password := Some password;
             rb_name := Some name; rb_role := role |}) db
  = (reply 201 (JUser id email name r),
     {| users := <[id := {| user_email := email; user_name := name;
                           user_password := hash password 10; user_role := r |}]> (users db);
        courses := courses db; resources := resources db; comments := comments db |}).
Proof.
  intros He Hp Hn Hno r id.
  unfold register; simpl.
  rewrite (proj2 (falsy_Some email)), (proj2 (falsy_Some password)),
    (proj2 (falsy_Some name)) by done.
  simpl. apply user_findUnique_email_None in Hno. rewrite Hno. done.
Qed.

(** X1: a registration with the three fields present and an email no
    account has is answered 201 with the new account's id, email, name and
    role; the account is stored under a key no account had, with the hash
    of the password and role PROFESSOR only when the request says so; all
    other accounts and all other tables are as before. *)
Theorem register_success
    (hash : string → nat → string) (email password name : string)
    (role : option string) (db : Db) :
  email ≠ "" → password ≠ "" → name ≠ "" →
  no_account email db →
  let b := Some {| rb_email := Some email; rb_password := Some password;
                   rb_name := Some name; rb_role := role |} in
  let r := if bool_decide (role = Some "PROFESSOR") then PROFESSOR else STUDENT in
  let id := Prisma.new_id (users db) in
  users db !! id = None ∧
  (∀ j u, users db !! j = Some u → users (register hash b db).2 !! j = Some u) ∧
  register hash b db
  = (reply 201 (JUser id email name r),
     {| users := <[id := {| user_email := email; user_name := name;
                           user_password := hash password 10; user_role := r |}]> (users db);
        courses := courses db; resources := resources db; comments := comments db |}).
Proof.
  intros He Hp Hn Hno b r id.
  pose proof (register_new_account hash email password name role db He Hp Hn Hno) as Hreg.
  cbv zeta in Hreg. fold b r id in Hreg.
  split_and!; [apply new_id_fresh | | exact Hreg].
  intros j u Hu. rewrite Hreg. simpl.
  rewrite lookup_insert_ne; [done|]. by eapply new_id_ne.
Qed.

Lemma register_success_witness :
  let b := Some {| rb_email := Some "ana@test.com"; rb_password := Some "secret";
                   rb_name := Some "Ana"; rb_role := Some "ADMIN" |} in
  no_account "ana@test.com" Sample.db ∧
  (register Sample.hash b Sample.db).1 = reply 201 (JUser "0" "ana@test.com" "Ana" STUDENT) ∧
  users (register Sample.hash b Sample.db).2 !! "0"
  = Some {| user_email := "ana@test.com"; user_name := "Ana";
            user_password := "h:secret"; user_role := STUDENT |}.
Proof.
  assert (Hno : no_account "ana@test.com" Sample.db).
  { intros id u H. destruct (sample_users id u H) as [[-> ->]|[-> ->]]; discriminate. }
  split; [exact Hno|].
  destruct (register_success Sample.hash "ana@test.com" "secret" "Ana" (Some "ADMIN")
              Sample.db) as (_ & _ & Hreg); [discriminate..|exact Hno|].
  rewrite Hreg. split; vm_compute; reflexivity.
Defined.

(** What a reply 200 of login says about the store and the request. *)
Lemma login_200
    (compare : string → string → bool) (sign : Claim → string)
    (b : option LoginBody) (db : Db) :
  status (login compare sign b db) = 200 →
  ∃ id u email password,
    field lb_email b = Some email ∧ field lb_password b = Some password ∧
    users db !! id = Some u ∧ user_email u = email ∧
    compare password (user_password u) = true ∧
    body (login compare sign b db) = JUser id (user_email u) (user_name u) (user_role u) ∧
    setCookie (login compare sign b db)
    = Some {| cookie_name := "token";
              cookie_value := sign {| sub := id; claim_email := user_email u;
                                      claim_name := user_name u;
                                      claim_role := user_role u |};
              cookie_httpOnly := true; cookie_sameSite := "lax"; cookie_path := "/";
              cookie_maxAge := 604800 |}.
Proof.
  unfold login.
  destruct (falsy (field lb_email b)) eqn:Hfe; simpl; [discriminate|].
  destruct (falsy (field lb_password b)) eqn:Hfp; simpl; [discriminate|].
  destruct (field lb_email b) as [email|]; [|done].
  destruct (field lb_password b) as [password|]; [|done]. simpl.
  destruct (Prisma.user_findUnique_email email db) as [[id u]|] eqn:Hf; [|discriminate].
  apply user_findUnique_email_Some in Hf as [Hu He].
  destruct (compare password (user_password u)) eqn:Hc; simpl; [|discriminate].
  intros _. exists id, u, email, password. split_and!; done.
Qed.


(** X3: after a registration that succeeded, a login with the same email
    and password is answered 200 for the account just created, provided the
    hasher accepts the hash it made of that password. *)
Theorem register_then_login
    (hash : string → nat → string) (compare : string → string → bool)
    (sign : Claim → string) (email password name : string) (role : option string) (db : Db) :
  email ≠ "" → password ≠ "" → name ≠ "" →
  no_account email db →
  compare password (hash password 10) = true →
  let b := Some {| rb_email := Some email; rb_password := Some password;
                   rb_name := Some name; rb_role := role |} in
  let l := Some {| lb_email := Some email; lb_password := Some password |} in
  ∃ id r,
    (register hash b db).1 = reply 201 (JUser id email name r) ∧
    status (login compare sign l (register hash b db).2) = 200 ∧
    body (login compare sign l (register hash b db).2) = JUser id email name r.
Proof.
  intros He Hp Hn Hno Hc b l.
  pose proof (register_new_account hash email password name role db He Hp Hn Hno) as Hreg.
  cbv zeta in Hreg. fold b in Hreg. rewrite Hreg. simpl. eexists _, _. split; [reflexivity|].
  unfold login, l; simpl.
  rewrite (proj2 (falsy_Some email)), (proj2 (falsy_Some password)) by done. simpl.
  rewrite (user_findUnique_email_insert email db _ _ Hno) by done. simpl.
  rewrite Hc. simpl. done.
Qed.

Lemma register_then_login_witness :
  let b := Some {| rb_email := Some "ana@test.com"; rb_password := Some "secret";
                   rb_name := Some "Ana"; rb_role := Some "PROFESSOR" |} in
  let l := Some {| lb_email := Some "ana@test.com"; lb_password := Some "secret" |} in
  Sample.compare "secret" (Sample.hash "secret" 10) = true ∧
  ∃ id r,
    (register Sample.hash b Sample.db).1 = reply 201 (JUser id "ana@test.com" "Ana" r) ∧
    status (login Sample.compare Sample.sign l (register Sample.hash b Sample.db).2) = 200.
Proof.
  split; [reflexivity|].
  destruct (register_then_login Sample.hash Sample.compare Sample.sign
              "ana@test.com" "secret" "Ana" (Some "PROFESSOR") Sample.db)
    as (id & r & Hreg & Hst & _); [discriminate..| |reflexivity|].
  - intros i u H. destruct (sample_users i u H) as [[-> ->]|[-> ->]]; discriminate.
  - exists id, r. split; [exact Hreg | exact Hst].
Defined.

(** ** The session: from login to the protected routes *)

(** X4: the token a successful login sets is accepted by the pre-handler
    of the protected routes, with the id, email, name and role of the
    account as the caller's claim, provided the verifier reads back that
    signed claim. *)
Theorem login_token_authenticates
    (compare : string → string → bool) (sign : Claim → string)
    (verify : string → option Claim) (b : option LoginBody) (db : Db)
    (id email name : string) (role : Role) (c : Cookie) :
  status (login compare sign b db) = 200 →
  body (login compare sign b db) = JUser id email name role →
  setCookie (login compare sign b db) = Some c →
  verify (sign {| sub := id; claim_email := email; claim_name := name; claim_role := role |})
  = Some {| sub := id; claim_email := email; claim_name := name; claim_role := role |} →
  authenticate verify (Some (cookie_value c))
  = inr {| sub := id; claim_email := email; claim_name := name; claim_role := role |}.
Proof.
  intros Hs Hb Hc Hv.
  destruct (login_200 compare sign b db Hs)
    as (id' & u & e & p & _ & _ & _ & _ & _ & Hb' & Hc').
  rewrite Hb in Hb'. rewrite Hc in Hc'. simplify_eq.
  unfold authenticate. simpl. by rewrite Hv.
Qed.

Lemma login_token_authenticates_witness :
  let l := Some {| lb_email := Some "prof@test.com"; lb_password := Some "test1234" |} in
  status (login Sample.compare Sample.sign l Sample.db) = 200 ∧
  authenticate Sample.verify (Some "token-of-u1") = inr Sample.professor_claim.
Proof.
  split; [vm_compute; reflexivity|].
  apply (login_token_authenticates Sample.compare Sample.sign Sample.verify
           (Some {| lb_email := Some "prof@test.com"; lb_password := Some "test1234" |})
           Sample.db "u1" "prof@test.com" "Test Profesor" PROFESSOR
           {| cookie_name := "token"; cookie_value := "token-of-u1";
              cookie_httpOnly := true; cookie_sameSite := "lax"; cookie_path := "/";
              cookie_maxAge := 604800 |});
    vm_compute; reflexivity.
Defined.

(** The reply of GET /auth/me to a token that stands for an account. *)
Lemma me_found (verify : string → option Claim) (t : string) (payload : Claim)
    (u : User) (db : Db) :
  t ≠ "" → verify t = Some payload → sub payload ≠ "" →
  users db !! sub payload = Some u →
  me verify (Some t) db
  = send (JUser (sub payload) (user_email u) (user_name u) (user_role u)).
Proof.
  intros Ht Hv Hs Hu. unfold me.
  rewrite (proj2 (falsy_Some t) Ht). simpl. rewrite Hv.
  rewrite (proj2 (truthy_true _) Hs). simpl. by rewrite Hu.
Qed.

(** X5: GET /auth/me is answered 200 exactly when the cookie holds a
    non-empty token that verifies to a claim whose subject is not empty and
    is the key of a stored account, and then it reports that account as the
    table has it; in every other case the reply is 401 "Neautorizat". *)
Theorem me_account_or_unauthorized
    (verify : string → option Claim) (token : option string) (db : Db) :
  (∀ t payload u,
     token = Some t → t ≠ "" → verify t = Some payload → sub payload ≠ "" →
     users db !! sub payload = Some u →
     me verify token db
     = send (JUser (sub payload) (user_email u) (user_name u) (user_role u))) ∧
  (status (me verify token db) = 200 →
   ∃ t payload u,
     token = Some t ∧ t ≠ "" ∧ verify t = Some payload ∧ sub payload ≠ "" ∧
     users db !! sub payload = Some u) ∧
  (status (me verify token db) ≠ 200 →
   me verify token db = reply 401 (JMessage "Neautorizat")).
Proof.
  split_and!.
  - intros t payload u -> Ht Hv Hs Hu. by apply me_found.
  - unfold me. destruct (falsy token) eqn:Hf; [discriminate|].
    destruct token as [t|]; [|done]. apply falsy_Some in Hf. simpl.
    destruct (verify t) as [payload|] eqn:Hv; [|discriminate].
    destruct (Str.truthy (sub payload)) eqn:Hs; simpl; [|discriminate].
    apply truthy_true in Hs.
    destruct (users db !! sub payload) as [u|] eqn:Hu; [|discriminate].
    intros _. exists t, payload, u. done.
  - unfold me. destruct (falsy token); [done|].
    destruct (verify _) as [payload|]; [|done].
    destruct (Str.truthy (sub payload)); simpl; [|done].
    destruct (users db !! sub payload); [|done]. simpl. done.
Qed.

(** X6: right after a successful login, GET /auth/me with the cookie that
    login set reports the same account as the login reply did, provided the
    verifier reads back the signed claim. *)
Theorem login_then_me
    (compare : string → string → bool) (sign : Claim → string)
    (verify : string → option Claim) (b : option LoginBody) (db : Db)
    (id email name : string) (role : Role) (c : Cookie) :
  status (login compare sign b db) = 200 →
  body (login compare sign b db) = JUser id email name role →
  setCookie (login compare sign b db) = Some c →
  cookie_value c ≠ "" → id ≠ "" →
  verify (sign {| sub := id; claim_email := email; claim_name := name; claim_role := role |})
  = Some {| sub := id; claim_email := email; claim_name := name; claim_role := role |} →
  me verify (Some (cookie_value c)) db = send (JUser id email name role).
Proof.
  intros Hs Hb Hc Hne Hid Hv.
  destruct (login_200 compare sign b db Hs)
    as (id' & u & e & p & _ & _ & Hu & _ & _ & Hb' & Hc').
  rewrite Hb in Hb'. rewrite Hc in Hc'. simplify_eq. simpl in *.
  by rewrite (me_found verify _ _ u db Hne Hv Hid Hu).
Qed.

Lemma login_then_me_witness :
  let l := Some {| lb_email := Some "prof@test.com"; lb_password := Some "test1234" |} in
  status (login Sample.compare Sample.sign l Sample.db) = 200 ∧
  me Sample.verify (Some "token-of-u1") Sample.db
  = send (JUser "u1" "prof@test.com" "Test Profesor" PROFESSOR).
Proof.
  split; [vm_compute; reflexivity|].
  apply (login_then_me Sample.compare Sample.sign Sample.verify
           (Some {| lb_email := Some "prof@test.com"; lb_password := Some "test1234" |})
           Sample.db "u1" "prof@test.com" "Test Profesor" PROFESSOR
           {| cookie_name := "token"; cookie_value := "token-of-u1";
              cookie_httpOnly := true; cookie_sameSite := "lax"; cookie_path := "/";
              cookie_maxAge := 604800 |});
    first [discriminate | vm_compute; reflexivity].
Defined.

(** A token of the empty string is no session. *)
Example me_empty_token :
  me Sample.verify (Some "") Sample.db = reply 401 (JMessage "Neautorizat").
Proof. reflexivity. Qed.

(** ** The course routes, case by case *)

Section RouteCases.

Variable verify : string → option Claim.

(** X7: without a token that verifies, each of the seven routes behind the
    pre-handler is answered 401 "Neautorizat" and leaves the store as it
    was, whatever the parameters and the body. *)
Theorem protected_routes_need_session (token : option string) (db : Db) :
  token ≫= verify = None →
  (∀ now b, POST_courses verify now token b db = (reply 401 (JMessage "Neautorizat"), db)) ∧
  (∀ id b, PUT_course verify token id b db = (reply 401 (JMessage "Neautorizat"), db)) ∧
  (∀ id, DELETE_course verify token id db = (reply 401 (JMessage "Neautorizat"), db)) ∧
  (∀ now id b,
     POST_resource verify now token id b db = (reply 401 (JMessage "Neautorizat"), db)) ∧
  (∀ id, DELETE_resource verify token id db = (reply 401 (JMessage "Neautorizat"), db)) ∧
  (∀ now id b,
     POST_comment verify now token id b db = (reply 401 (JMessage "Neautorizat"), db)) ∧
  (∀ id, DELETE_comment verify token id db = (reply 401 (JMessage "Neautorizat"), db)).
Proof.
  intros Hno.
  assert (Hr : ∀ handler, route verify token handler db
                          = (reply 401 (JMessage "Neautorizat"), db)).
  { intros handler. unfold route, authenticate. by rewrite Hno. }
  split_and!; intros; apply Hr.
Qed.

(** X8: POST /courses by a professor with a title, description or category
    that is missing or empty once trimmed is answered 400 and creates
    nothing. *)
Theorem post_courses_blank_field
    (now : Z) (token : option string) (user : Claim) (b : option CourseBody) (db : Db) :
  authenticate verify token = inr user →
  claim_role user = PROFESSOR →
  Str.trim (Str.or_empty (field cb_title b)) = ""
  ∨ Str.trim (Str.or_empty (field cb_description b)) = ""
  ∨ Str.trim (Str.or_empty (field cb_category b)) = "" →
  POST_courses verify now token b db
  = (reply 400 (JMessage "title, description si category sunt obligatorii"), db).
Proof.
  intros Hauth Hrole Hblank. unfold POST_courses.
  rewrite (route_authenticated _ _ user) by done.
  unfold post_courses, requireProfessor. simpl. rewrite Hrole. simpl.
  assert (negb (Str.truthy (Str.trim (Str.or_empty (field cb_title b))))
          || negb (Str.truthy (Str.trim (Str.or_empty (field cb_description b))))
          || negb (Str.truthy (Str.trim (Str.or_empty (field cb_category b)))) = true) as ->;
    [|done].
  rewrite !orb_true_iff, !negb_true_iff, !truthy_false. tauto.
Qed.


(** The fields of an update that passes validation: each provided field
    trimmed, nothing for the others. *)
Lemma put_data_valid b :
  (∀ v, provided b v → Str.trim v ≠ "") →
  put_data b = inr {| data_title := Str.trim <$> field cb_title b;
                      data_description := Str.trim <$> field cb_description b;
                      data_category := Str.trim <$> field cb_category b |}.
Proof.
  unfold put_data, provided, mbind, reply_bind. intros Hv.
  destruct (field cb_title b) as [t|] eqn:Ht;
    [rewrite (proj2 (truthy_true (Str.trim t))) by (apply Hv; auto)|];
    (destruct (field cb_description b) as [d|] eqn:Hd;
     [rewrite (proj2 (truthy_true (Str.trim d))) by (apply Hv; auto)|]);
    (destruct (field cb_category b) as [c|] eqn:Hc;
     [rewrite (proj2 (truthy_true (Str.trim c))) by (apply Hv; auto)|]);
    done.
Qed.


(** X11: DELETE /courses/:id by the owner is answered 200 "Deleted"; the
    course is gone, so GET /courses/:id is 404; of the resources and the
    comments exactly those of other courses remain; the other courses and
    the accounts are untouched. *)
Theorem delete_course_cascades
    (token : option string) (user : Claim) (id : string) (c : Course) (db : Db) :
  authenticate verify token = inr user →
  courses db !! id = Some c →
  course_ownerId c = sub user →
  ∃ db',
    DELETE_course verify token id db = (send (JMessage "Deleted"), db') ∧
    get_course id db' = reply 404 (JMessage "Curs inexistent") ∧
    (∀ j, j ≠ id → courses db' !! j = courses db !! j) ∧
    (∀ rid r, resources db' !! rid = Some r ↔
              resources db !! rid = Some r ∧ resource_courseId r ≠ id) ∧
    (∀ mid m, comments db' !! mid = Some m ↔
              comments db !! mid = Some m ∧ comment_courseId m ≠ id) ∧
    users db' = users db.
Proof.
  intros Hauth Hc Hown. exists (Prisma.course_delete id db).
  split_and!.
  - unfold DELETE_course. rewrite (route_authenticated _ _ user) by done.
    unfold delete_course, Prisma.course_findUnique. rewrite Hc.
    by rewrite bool_decide_eq_false_2 by (intros Hne; by apply Hne).
  - unfold get_course, Prisma.course_findUnique_detail. simpl.
    by rewrite lookup_delete_eq.
  - intros j Hj. simpl. by rewrite lookup_delete_ne.
  - intros rid r. simpl. by rewrite map_lookup_filter_Some.
  - intros mid m. simpl. by rewrite map_lookup_filter_Some.
  - done.
Qed.

End RouteCases.

Section ResourceAndCommentCases.

Variable verify : string → option Claim.


(** X13: DELETE /resources/:id by an authenticated caller: 404 when no
    resource has the id; 403 with nothing changed when the course of the
    resource is owned by someone else, or is not there; when the caller
    owns the course, 200 "Deleted" and exactly that resource is removed. *)
Theorem delete_resource_cases
    (token : option string) (user : Claim) (id : string) (db : Db) :
  authenticate verify token = inr user →
  (resources db !! id = None →
   DELETE_resource verify token id db = (reply 404 (JMessage "Resursa inexistenta"), db)) ∧
  (∀ r, resources db !! id = Some r →
        (∀ c, courses db !! resource_courseId r = Some c → course_ownerId c ≠ sub user) →
        DELETE_resource verify token id db
        = (reply 403 (JMessage "Nu ai acces la aceasta resursa"), db)) ∧
  (∀ r c, resources db !! id = Some r →
          courses db !! resource_courseId r = Some c → course_ownerId c = sub user →
          DELETE_resource verify token id db
          = (send (JMessage "Deleted"),
             {| users := users db; courses := courses db;
                resources := delete id (resources db); comments := comments db |})).
Proof.
  intros Hauth. unfold DELETE_resource. rewrite (route_authenticated _ _ user) by done.
  unfold delete_resource, Prisma.resource_findUnique, Prisma.course_findUnique.
  split_and!.
  - by intros ->.
  - intros r -> Hother. destruct (courses db !! resource_courseId r) as [c|]; [|done].
    by rewrite bool_decide_eq_true_2 by (by apply Hother).
  - intros r c -> -> Hown.
    by rewrite bool_decide_eq_false_2 by (intros Hne; by apply Hne).
Qed.


(** X15: DELETE /comments/:id on an existing comment: a caller who is not
    its author is answered 403 and nothing changes, the owner of the course
    included; its author is answered 200 "Deleted" and exactly that comment
    is removed. *)
Theorem delete_comment_author_only
    (token : option string) (user : Claim) (id : string) (m : Comment) (db : Db) :
  authenticate verify token = inr user →
  comments db !! id = Some m →
  (comment_userId m ≠ sub user →
   DELETE_comment verify token id db
   = (reply 403 (JMessage "Nu ai acces la acest comentariu"), db)) ∧
  (comment_userId m = sub user →
   DELETE_comment verify token id db
   = (send (JMessage "Deleted"),
      {| users := users db; courses := courses db; resources := resources db;
         comments := delete id (comments db) |})).
Proof.
  intros Hauth Hm. unfold DELETE_comment.
  rewrite (route_authenticated _ _ user) by done.
  unfold delete_comment, Prisma.comment_findUnique. rewrite Hm. split.
  - intros Hne. by rewrite bool_decide_eq_true_2.
  - intros Heq. by rewrite bool_decide_eq_false_2 by (intros Hne; by apply Hne).
Qed.

End ResourceAndCommentCases.

(** Concrete runs of the course routes on the sample database. *)

Lemma protected_routes_need_session_witness :
  Some "forged" ≫= Sample.verify = None ∧
  DELETE_course Sample.verify (Some "forged") "c1" Sample.db
  = (reply 401 (JMessage "Neautorizat"), Sample.db) ∧
  (∀ now b, POST_comment Sample.verify now None "c1" b Sample.db
            = (reply 401 (JMessage "Neautorizat"), Sample.db)).
Proof.
  split; [reflexivity|]. split.
  - apply (protected_routes_need_session Sample.verify (Some "forged") Sample.db).
    reflexivity.
  - intros now b.
    apply (protected_routes_need_session Sample.verify None Sample.db). reflexivity.
Defined.

Lemma post_courses_blank_field_witness :
  let b := Some {| cb_title := Some "  "; cb_description := Some "Matrice";
                   cb_category := Some "Mate" |} in
  Str.trim (Str.or_empty (field cb_title b)) = "" ∧
  POST_courses Sample.verify 500 (Some "token-of-u1") b Sample.db
  = (reply 400 (JMessage "title, description si category sunt obligatorii"), Sample.db).
Proof.
  split; [reflexivity|].
  apply (post_courses_blank_field Sample.verify 500 (Some "token-of-u1")
           Sample.professor_claim); [reflexivity | reflexivity | left; reflexivity].
Defined.



Lemma delete_course_cascades_witness :
  get_course "c1" (DELETE_course Sample.verify (Some "token-of-u1") "c1" Sample.db).2
  = reply 404 (JMessage "Curs inexistent") ∧
  resources (DELETE_course Sample.verify (Some "token-of-u1") "c1" Sample.db).2 !! "r1" = None.
Proof.
  destruct (delete_course_cascades Sample.verify (Some "token-of-u1")
              Sample.professor_claim "c1" Sample.web Sample.db)
    as (db' & Hdel & Hget & _ & Hres & _);
    [reflexivity | vm_compute; reflexivity | reflexivity |].
  rewrite Hdel. simpl. split; [exact Hget|].
  destruct (resources db' !! "r1") as [r|] eqn:Hr; [|reflexivity].
  apply Hres in Hr as [Hr Hne]. vm_compute in Hr. injection Hr as <-. by destruct Hne.
Defined.


Lemma delete_resource_cases_witness :
  DELETE_resource Sample.verify (Some "token-of-u2") "r1" Sample.db
  = (reply 403 (JMessage "Nu ai acces la aceasta resursa"), Sample.db) ∧
  (DELETE_resource Sample.verify (Some "token-of-u1") "r1" Sample.db).1
  = send (JMessage "Deleted").
Proof.
  split.
  - destruct (delete_resource_cases Sample.verify (Some "token-of-u2")
                Sample.student_claim "r1" Sample.db) as (_ & Hforbidden & _);
      [reflexivity|].
    eapply Hforbidden; [vm_compute; reflexivity|].
    intros c Hc. vm_compute in Hc. simplify_eq. discriminate.
  - destruct (delete_resource_cases Sample.verify (Some "token-of-u1")
                Sample.professor_claim "r1" Sample.db) as (_ & _ & Hdeleted);
      [reflexivity|].
    erewrite Hdeleted; [reflexivity | vm_compute; reflexivity.. | reflexivity].
Defined.


Lemma delete_comment_author_only_witness :
  course_ownerId Sample.web = sub Sample.professor_claim ∧
  DELETE_comment Sample.verify (Some "token-of-u1") "m1" Sample.db
  = (reply 403 (JMessage "Nu ai acces la acest comentariu"), Sample.db) ∧
  (DELETE_comment Sample.verify (Some "token-of-u2") "m1" Sample.db).1
  = send (JMessage "Deleted").
Proof.
  split; [reflexivity|]. split.
  - destruct (delete_comment_author_only Sample.verify (Some "token-of-u1")
                Sample.professor_claim "m1"
                (mkComment "Cursul e clar si bine structurat." 130 "c1" "u2") Sample.db)
      as [Hforbidden _]; [reflexivity | vm_compute; reflexivity |].
    apply Hforbidden. discriminate.
  - destruct (delete_comment_author_only Sample.verify (Some "token-of-u2")
                Sample.student_claim "m1"
                (mkComment "Cursul e clar si bine structurat." 130 "c1" "u2") Sample.db)
      as [_ Hdeleted]; [reflexivity | vm_compute; reflexivity |].
    rewrite Hdeleted; reflexivity.
Defined.

(** ** What no request does *)

(** One case per branch of a handler. *)
Ltac handler_cases :=
  unfold register, post_courses, put_course, delete_course, post_resource,
    delete_resource, post_comment, delete_comment, requireProfessor,
    Prisma.course_create, Prisma.course_update, Prisma.course_delete,
    Prisma.resource_create, Prisma.resource_delete, Prisma.comment_create,
    Prisma.comment_delete, Prisma.user_create, Prisma.course_findUnique,
    Prisma.resource_findUnique, Prisma.comment_findUnique in *;
  repeat case_match; simplify_eq; simpl in *.

(** One case per request and per outcome of the pre-handler. *)
Ltac serve_cases a :=
  unfold serve, POST_courses, PUT_course, DELETE_course, POST_resource,
    DELETE_resource, POST_comment, DELETE_comment, route in *;
  destruct (request a) eqn:?; simpl in *;
  try (destruct (authenticate _ (with_token a)) as [?stop|?user] eqn:?; simpl in *).

(** The lookup in [H] hits the key just written or deleted, or another
    one. *)
Ltac lookup_cases H :=
  match type of H with
  | context [<[?i := _]> _ !! ?j] =>
      destruct (decide (i = j)) as [?Hsame|?Hother];
      [rewrite <-?Hsame in H; rewrite lookup_insert_eq in H
      |rewrite lookup_insert_ne in H by done]
  | context [delete ?i _ !! ?j] =>
      destruct (decide (i = j)) as [?Hsame|?Hother];
      [rewrite <-?Hsame in H; rewrite lookup_delete_eq in H
      |rewrite lookup_delete_ne in H by done]
  | _ => idtac
  end.

Section Never.

Variable bcrypt_hash : string → nat → string.
Variable bcrypt_compare : string → string → bool.
Variable jwt_sign : Claim → string.
Variable jwt_verify : string → option Claim.

Abbreviation serves := (serve bcrypt_hash bcrypt_compare jwt_sign jwt_verify).

(** X16: a request that is not answered 200 or 201 leaves the whole store
    as it was: no handler writes before it refuses. *)
Theorem refused_request_changes_nothing (a : Arrival) (db : Db) :
  ¬ succeeded (serves a db).1 → (serves a db).2 = db.
Proof.
  unfold succeeded. intros Hno. serve_cases a; try done;
    handler_cases; try done; destruct Hno; auto.
Qed.

(** X17: no request removes or changes an account: whatever is stored under
    a key of the accounts table stays there, role included. *)
Theorem accounts_never_change (a : Arrival) (db : Db) (id : string) (u : User) :
  users db !! id = Some u → users (serves a db).2 !! id = Some u.
Proof.
  intros Hu. serve_cases a; try done; handler_cases; try done.
  all: rewrite lookup_insert_ne; [done|]; by eapply new_id_ne.
Qed.

End Never.

(** ** Trimmed texts *)

Lemma trimEnd_idemp s : Str.trimEnd (Str.trimEnd s) = Str.trimEnd s.
Proof.
  induction s as [|c r IH]; [done|]. simpl.
  destruct (Str.trimEnd r) as [|c' r'] eqn:Hr.
  - destruct (Str.is_space c) eqn:Hc; simpl; [done|]. by rewrite Hc.
  - simpl in *. by rewrite IH.
Qed.

Lemma trimStart_head s c r : Str.trimStart s = String c r → Str.is_space c = false.
Proof.
  induction s as [|a s IH]; simpl; [done|].
  destruct (Str.is_space a) eqn:Ha; [done|]. intros [= <- <-]. done.
Qed.

Lemma trimEnd_head c r :
  Str.is_space c = false → ∃ r', Str.trimEnd (String c r) = String c r'.
Proof. intros Hc. simpl. destruct (Str.trimEnd r); rewrite ?Hc; eauto. Qed.

(** Trimming twice is trimming once. *)
Lemma trim_idemp s : Str.trim (Str.trim s) = Str.trim s.
Proof.
  unfold Str.trim. destruct (Str.trimStart s) as [|c r] eqn:Hs; [done|].
  destruct (trimEnd_head c r (trimStart_head _ _ _ Hs)) as [r' Hr'].
  rewrite Hr' at 1. simpl Str.trimStart.
  rewrite (trimStart_head _ _ _ Hs), <-Hr'. apply trimEnd_idemp.
Qed.

Lemma tidy_text_trim s : Str.trim s ≠ "" → tidy_text (Str.trim s).
Proof. intros Hs. split; [done | apply trim_idemp]. Qed.

(** A trimmed text neither starts nor ends with white space. *)
Lemma trimEnd_last s r c :
  Str.trimEnd s = r +:+ String c "" → Str.is_space c = false.
Proof.
  revert r. induction s as [|a s IH]; intros r; simpl.
  - destruct r; discriminate.
  - destruct (Str.trimEnd s) as [|a' s'] eqn:Hs.
    + destruct (Str.is_space a) eqn:Ha; [destruct r; discriminate|].
      destruct r as [|b [|??]]; intros [=]; by subst.
    + destruct r as [|b r]; [discriminate|]. intros [= <- Hr]. by apply (IH r).
Qed.

(** ** Invariants of every reachable store *)

Lemma insert_user_unique_emails id u db :
  no_account (user_email u) db → unique_emails db →
  unique_emails {| users := <[id := u]> (users db); courses := courses db;
                   resources := resources db; comments := comments db |}.
Proof.
  intros Hno Huniq i j v w. simpl. rewrite !lookup_insert.
  repeat case_decide; intros; simplify_eq; try done.
  - by destruct (Hno j w).
  - by destruct (Hno i v).
  - eauto.
Qed.

Lemma insert_user_tidy id u db :
  user_email u ≠ "" → user_name u ≠ "" → tidy db →
  tidy {| users := <[id := u]> (users db); courses := courses db;
          resources := resources db; comments := comments db |}.
Proof.
  intros He Hn (Hu & Hc & Hr & Hm). split_and!; simpl; [|done..].
  by apply map_Forall_insert_2.
Qed.

Lemma register_unique_emails hash b db :
  unique_emails db → unique_emails (register hash b db).2.
Proof.
  intros Huniq. unfold register.
  destruct (falsy _ || falsy _ || falsy _); [done|].
  destruct (Prisma.user_findUnique_email _ db) eqn:Hf; [done|].
  rewrite user_findUnique_email_None in Hf.
  unfold Prisma.user_create. simpl. apply insert_user_unique_emails; assumption.
Qed.

Lemma register_tidy hash b db : tidy db → tidy (register hash b db).2.
Proof.
  intros Htidy. unfold register.
  destruct (falsy (field rb_email b)) eqn:He; [done|].
  destruct (falsy (field rb_password b)) eqn:Hp; [done|].
  destruct (falsy (field rb_name b)) eqn:Hn; [done|]. simpl.
  destruct (Prisma.user_findUnique_email _ db); [done|].
  destruct (field rb_email b) as [email|]; [|done].
  destruct (field rb_name b) as [name|]; [|done].
  apply falsy_Some in He, Hn.
  unfold Prisma.user_create. simpl. apply insert_user_tidy; assumption.
Qed.

Section Invariants.

Variable bcrypt_hash : string → nat → string.
Variable bcrypt_compare : string → string → bool.
Variable jwt_sign : Claim → string.
Variable jwt_verify : string → option Claim.

Abbreviation serving := (serve bcrypt_hash bcrypt_compare jwt_sign jwt_verify).
Abbreviation running := (run bcrypt_hash bcrypt_compare jwt_sign jwt_verify).

Lemma serve_unique_emails a db : unique_emails db → unique_emails (serving a db).2.
Proof.
  intros Huniq. serve_cases a; try done;
    first [by apply register_unique_emails | handler_cases; done].
Qed.

Lemma serve_tidy a db : tidy db → tidy (serving a db).2.
Proof.
  intros Htidy. pose proof Htidy as (Hu & Hc & Hr & Hm).
  serve_cases a; try done; first [by apply register_tidy | handler_cases; try done].
  all: split_and!; simpl; try done.
  all: try (apply map_Forall_delete; done).
  all: try (apply map_Forall_insert_2; [|done]; simpl).
  all: repeat match goal with
         | H : _ || _ = false |- _ => apply orb_false_iff in H as [? ?]
         end;
       repeat match goal with
         | H : negb (Str.truthy _) = false |- _ => apply negb_false_iff, truthy_true in H
         end.
  all: try (split_and!; by apply tidy_text_trim).
  - match goal with
    | H : put_data ?b = inr ?d, Hid : courses db !! _ = Some ?c |- _ =>
        pose proof (put_data_inr b d H) as Hvalid;
        rewrite (put_data_valid b Hvalid) in H; injection H as <-;
        pose proof (Hc _ _ Hid) as (? & ? & ?); unfold provided in Hvalid
    end. simpl.
    split_and!;
      match goal with
      | |- tidy_text (default _ (Str.trim <$> ?f)) =>
          destruct f eqn:?; simpl; [apply tidy_text_trim, Hvalid; auto | done]
      end.
  - intros rid r [Hrid _]%map_lookup_filter_Some. exact (Hr rid r Hrid).
  - intros mid m [Hmid _]%map_lookup_filter_Some. exact (Hm mid m Hmid).
Qed.

(** No sequence of requests makes two accounts share an email. *)
Lemma emails_stay_unique (arrivals : list Arrival) (db : Db) :
  unique_emails db → unique_emails (running arrivals db).
Proof.
  revert db. induction arrivals as [|a arrivals IH]; intros db Hdb; [done|].
  simpl. apply IH, serve_unique_emails, Hdb.
Qed.

(** No sequence of requests stores an untidy text. *)
Lemma texts_stay_tidy (arrivals : list Arrival) (db : Db) :
  tidy db → tidy (running arrivals db).
Proof.
  revert db. induction arrivals as [|a arrivals IH]; intros db Hdb; [done|].
  simpl. apply IH, serve_tidy, Hdb.
Qed.

(** X18: every sequence of requests keeps the three invariants of the
    store, each on its own: the foreign keys of the schema; no two accounts
    with one email; and tidy texts (titles, descriptions, categories, URLs
    and comment contents never empty and without white space around them,
    every account with an email and a name).  The empty store has all
    three, so every store the server reaches has them. *)
Theorem invariants_kept (arrivals : list Arrival) (db : Db) :
  (foreign_keys db → foreign_keys (running arrivals db)) ∧
  (unique_emails db → unique_emails (running arrivals db)) ∧
  (tidy db → tidy (running arrivals db)) ∧
  (db = mkDb ∅ ∅ ∅ ∅ →
   foreign_keys (running arrivals db) ∧ unique_emails (running arrivals db)
   ∧ tidy (running arrivals db)).
Proof.
  assert (Hempty : unique_emails (mkDb ∅ ∅ ∅ ∅)).
  { intros i j u v Hu. simpl in Hu. by rewrite lookup_empty in Hu. }
  split_and!.
  - apply run_foreign_keys.
  - apply emails_stay_unique.
  - apply texts_stay_tidy.
  - intros ->. split_and!.
    + apply run_foreign_keys, foreign_keys_empty.
    + by apply emails_stay_unique.
    + apply texts_stay_tidy. split_and!; apply map_Forall_empty.
Qed.

Lemma unique_emails_empty : unique_emails (mkDb ∅ ∅ ∅ ∅).
Proof. intros i j u v Hu. simpl in Hu. by rewrite lookup_empty in Hu. Qed.

Lemma tidy_empty : tidy (mkDb ∅ ∅ ∅ ∅).
Proof. split_and!; apply map_Forall_empty. Qed.

End Invariants.

(** ** Who can change what *)

Lemma same_when_not_different (x y : string) : bool_decide (x ≠ y) = false → x = y.
Proof. intros H%bool_decide_eq_false. by apply dec_stable. Qed.

Section Authorisation.

Variable bcrypt_hash : string → nat → string.
Variable bcrypt_compare : string → string → bool.
Variable jwt_sign : Claim → string.
Variable jwt_verify : string → option Claim.

Abbreviation served := (serve bcrypt_hash bcrypt_compare jwt_sign jwt_verify).

(** X19: a stored course is changed or removed only by PUT or DELETE on
    its id from a caller whose token verifies to the course's owner: after
    any other request, and after any request of anyone else, the course is
    exactly as it was. *)
Theorem course_changed_by_owner_only (a : Arrival) (db : Db) (id : string) (c : Course) :
  courses db !! id = Some c →
  courses (served a db).2 !! id ≠ Some c →
  ∃ user,
    authenticate jwt_verify (with_token a) = inr user ∧
    sub user = course_ownerId c ∧
    (request a = DeleteCourse id ∨ ∃ b, request a = UpdateCourse id b).
Proof.
  intros Hc Hne. serve_cases a; try done; handler_cases; try done.
  all: try (rewrite lookup_insert_ne in Hne by (by eapply new_id_ne); done).
  - destruct (decide (id0 = id)) as [->|Hid];
      [|rewrite lookup_insert_ne in Hne by done; done].
    simplify_eq. apply same_when_not_different in H0. eauto 10.
  - destruct (decide (id0 = id)) as [->|Hid];
      [|rewrite lookup_delete_ne in Hne by done; done].
    simplify_eq. apply same_when_not_different in H0. eauto 10.
Qed.

(** X20: the owner and the creation time of a course never change: a
    course that is still stored after a request has the owner and the time
    it had before. *)
Theorem course_owner_and_time_fixed
    (a : Arrival) (db : Db) (id : string) (c c' : Course) :
  courses db !! id = Some c →
  courses (served a db).2 !! id = Some c' →
  course_ownerId c' = course_ownerId c ∧ course_createdAt c' = course_createdAt c.
Proof.
  intros Hc Hc'. serve_cases a; simplify_eq; try done; handler_cases; simplify_eq;
    try done; lookup_cases Hc'; simplify_eq; try done.
  all: by destruct (new_id_ne _ _ _ Hc).
Qed.

(** X21: a course comes into the store only through POST /courses from a
    caller whose token verifies to a PROFESSOR claim; the new course has
    that caller as owner and the time of the request. *)
Theorem course_created_by_professor_only
    (a : Arrival) (db : Db) (id : string) (c : Course) :
  courses db !! id = None →
  courses (served a db).2 !! id = Some c →
  ∃ user b,
    authenticate jwt_verify (with_token a) = inr user ∧
    claim_role user = PROFESSOR ∧
    request a = CreateCourse b ∧
    course_ownerId c = sub user ∧ course_createdAt c = at_time a.
Proof.
  intros Hc Hc'. serve_cases a; simplify_eq; try done; handler_cases; simplify_eq;
    try done; lookup_cases Hc'; simplify_eq; try done.
  apply bool_decide_eq_false, dec_stable in H5. simplify_eq.
  exists user, b. done.
Qed.

(** X22: resources are never edited, and a stored resource is removed only
    by a caller whose token verifies to the owner of its course (DELETE
    /resources/:id, or DELETE /courses/:id taking its resources along). *)
Theorem resource_removed_by_owner_only
    (a : Arrival) (db : Db) (rid : string) (r : Resource) :
  resources db !! rid = Some r →
  resources (served a db).2 !! rid ≠ Some r →
  resources (served a db).2 !! rid = None ∧
  ∃ user c,
    authenticate jwt_verify (with_token a) = inr user ∧
    courses db !! resource_courseId r = Some c ∧
    course_ownerId c = sub user.
Proof.
  intros Hr Hne. serve_cases a; try done; handler_cases; try done.
  - destruct (decide (resource_courseId r = id)) as [<-|Hother].
    + split.
      * apply map_lookup_filter_None_2. right. intros r' Hr' Hkeep.
        simplify_eq; try done; by apply Hkeep.
      * apply same_when_not_different in H0. eauto.
    + destruct Hne. by apply map_lookup_filter_Some_2.
  - rewrite lookup_insert_ne in Hne by (by eapply new_id_ne). done.
  - lookup_cases Hne; [|done]. simplify_eq.
    split; [apply lookup_delete_eq|].
    match goal with H : bool_decide _ = false |- _ => apply same_when_not_different in H end.
    eauto.
Qed.

(** X23: a resource comes into the store only through POST
    /courses/:id/resources from a caller whose token verifies to the owner
    of that course; it belongs to the course of the route and carries the
    time of the request. *)
Theorem resource_added_by_owner_only
    (a : Arrival) (db : Db) (rid : string) (r : Resource) :
  resources db !! rid = None →
  resources (served a db).2 !! rid = Some r →
  ∃ user c b,
    authenticate jwt_verify (with_token a) = inr user ∧
    request a = AddResource (resource_courseId r) b ∧
    courses db !! resource_courseId r = Some c ∧
    course_ownerId c = sub user ∧
    resource_createdAt r = at_time a.
Proof.
  intros Hr Hr'. serve_cases a; simplify_eq; try done; handler_cases; simplify_eq;
    try done.
  - apply map_lookup_filter_Some in Hr' as [Hr' _]. by simplify_eq.
  - lookup_cases Hr'; simplify_eq.
    match goal with H : bool_decide _ = false |- _ => apply same_when_not_different in H end.
    eauto 10.
  - lookup_cases Hr'; simplify_eq.
Qed.

(** X24: comments are never edited, and a stored comment is removed only
    by a caller whose token verifies to its author (DELETE /comments/:id)
    or to the owner of its course (DELETE /courses/:id taking its comments
    along). *)
Theorem comment_removed_by_author_or_owner
    (a : Arrival) (db : Db) (mid : string) (m : Comment) :
  comments db !! mid = Some m →
  comments (served a db).2 !! mid ≠ Some m →
  comments (served a db).2 !! mid = None ∧
  ∃ user,
    authenticate jwt_verify (with_token a) = inr user ∧
    (comment_userId m = sub user ∨
     ∃ c, courses db !! comment_courseId m = Some c ∧ course_ownerId c = sub user).
Proof.
  intros Hm Hne. serve_cases a; try done; handler_cases; try done.
  - destruct (decide (comment_courseId m = id)) as [<-|Hother].
    + split.
      * apply map_lookup_filter_None_2. right. intros m' Hm' Hkeep.
        simplify_eq; try done; by apply Hkeep.
      * apply same_when_not_different in H0. eauto 10.
    + destruct Hne. by apply map_lookup_filter_Some_2.
  - rewrite lookup_insert_ne in Hne by (by eapply new_id_ne). done.
  - lookup_cases Hne; [|done]. simplify_eq.
    split; [apply lookup_delete_eq|].
    match goal with H : bool_decide _ = false |- _ => apply same_when_not_different in H end.
    eauto.
Qed.

(** X25: a comment comes into the store only through POST
    /courses/:id/comments from a caller whose token verifies; its author is
    that caller, whatever the role, its course is the existing course of
    the route, and it carries the time of the request. *)
Theorem comment_added_by_caller
    (a : Arrival) (db : Db) (mid : string) (m : Comment) :
  comments db !! mid = None →
  comments (served a db).2 !! mid = Some m →
  ∃ user b,
    authenticate jwt_verify (with_token a) = inr user ∧
    request a = AddComment (comment_courseId m) b ∧
    comment_userId m = sub user ∧
    is_Some (courses db !! comment_courseId m) ∧
    comment_createdAt m = at_time a.
Proof.
  intros Hm Hm'. serve_cases a; simplify_eq; try done; handler_cases; simplify_eq;
    try done.
  - apply map_lookup_filter_Some in Hm' as [Hm' _]. by simplify_eq.
  - lookup_cases Hm'; simplify_eq. eauto 10.
  - lookup_cases Hm'; simplify_eq.
Qed.

End Authorisation.

(** ** The seed script *)

Section SeedProperties.

Variable hash : string → nat → string.

(** The upsert of the seed stores the test professor under the key of the
    account that had the email, or under a new key. *)
Lemma seed_upsert db :
  ∃ pid,
    user_upsert "prof@test.com"
      (λ u, {| user_email := user_email u; user_name := "Test Profesor";
               user_password := hash "test1234" 10; user_role := PROFESSOR |})
      (seeded_professor hash) db
    = (pid, (seeded_professor hash),
       {| users := <[pid := (seeded_professor hash)]> (users db); courses := courses db;
          resources := resources db; comments := comments db |}) ∧
    (no_account "prof@test.com" db ∧ users db !! pid = None
     ∨ ∃ u, users db !! pid = Some u ∧ user_email u = "prof@test.com").
Proof.
  unfold user_upsert.
  destruct (Prisma.user_findUnique_email "prof@test.com" db) as [[pid u]|] eqn:Hf.
  - apply user_findUnique_email_Some in Hf as [Hu He].
    exists pid. split; [|right; eauto].
    unfold seeded_professor. by rewrite He.
  - exists (Prisma.new_id (users db)). split; [done|]. left.
    rewrite user_findUnique_email_None in Hf.
    split; [exact Hf | apply new_id_fresh].
Qed.

(** The store after the seed, spelled out. *)
Lemma seed_result now later db :
  ∃ pid,
    let cid := Prisma.new_id (courses db) in
    let r1 := Prisma.new_id (resources db) in
    let html := mkResource "Ghid HTML" "https://developer.mozilla.org/en-US/docs/Web/HTML"
                  LINK now cid in
    let r2 := Prisma.new_id (<[r1 := html]> (resources db)) in
    let css := mkResource "CSS Basics" "https://developer.mozilla.org/en-US/docs/Web/CSS"
                 LINK now cid in
    let mid := Prisma.new_id (comments db) in
    seed hash now later db
    = Some {| users := <[pid := (seeded_professor hash)]> (users db);
              courses := <[cid := seeded_course now pid]> (courses db);
              resources := <[r2 := css]> (<[r1 := html]> (resources db));
              comments :=
                <[mid := mkComment "Cursul e clar si bine structurat." later cid pid]>
                  (comments db) |} ∧
    (no_account "prof@test.com" db ∧ users db !! pid = None
     ∨ ∃ u, users db !! pid = Some u ∧ user_email u = "prof@test.com").
Proof.
  destruct (seed_upsert db) as (pid & Hup & Hcase). exists pid. split; [|done].
  unfold seed. fold (seeded_professor hash). rewrite Hup.
  unfold Prisma.course_create. simpl. rewrite lookup_insert_eq. simpl.
  unfold Prisma.resource_create. simpl. rewrite lookup_insert_eq. simpl.
  rewrite lookup_insert_eq. simpl.
  unfold Prisma.comment_create. simpl. rewrite !lookup_insert_eq. simpl. done.
Qed.

(** With unique emails, the lookup by email finds the one account that
    has the email. *)
Lemma user_findUnique_email_unique db id u :
  unique_emails db → users db !! id = Some u →
  Prisma.user_findUnique_email (user_email u) db = Some (id, u).
Proof.
  intros Huniq Hu.
  destruct (user_findUnique_email_is_Some (user_email u) db id u Hu eq_refl)
    as [[id' u'] Hf].
  rewrite Hf. apply user_findUnique_email_Some in Hf as [Hu' He'].
  assert (id' = id) as -> by (by eapply Huniq). by simplify_eq.
Qed.

Lemma replace_user_unique_emails id u u' db :
  users db !! id = Some u → user_email u' = user_email u → unique_emails db →
  unique_emails {| users := <[id := u']> (users db); courses := courses db;
                   resources := resources db; comments := comments db |}.
Proof.
  intros Hu He Huniq i j v w. simpl. rewrite !lookup_insert.
  repeat case_decide; intros; simplify_eq; try done.
  - symmetry. eapply Huniq; [done..|]. congruence.
  - eapply Huniq; [done..|]. congruence.
  - eauto.
Qed.

Lemma seed_unique_emails now later db db' :
  unique_emails db → seed hash now later db = Some db' → unique_emails db'.
Proof.
  intros Huniq Hseed.
  destruct (seed_result now later db) as (pid & Hr & Hcase).
  cbv zeta in Hr. rewrite Hseed in Hr. injection Hr as ->.
  assert (unique_emails {| users := <[pid := seeded_professor hash]> (users db);
                           courses := courses db; resources := resources db;
                           comments := comments db |}) as Hu; [|exact Hu].
  destruct Hcase as [[Hno _]|(u & Hu & He)].
  - by apply insert_user_unique_emails.
  - by eapply replace_user_unique_emails.
Qed.

(** X26: the seed script never fails, whatever the store holds: it ends
    with the test professor stored, and it keeps the foreign keys, the
    uniqueness of emails and the tidiness of the stored texts. *)
Theorem seed_succeeds (now later : Z) (db : Db) :
  ∃ db' pid,
    seed hash now later db = Some db' ∧
    users db' !! pid = Some (seeded_professor hash) ∧
    (foreign_keys db → foreign_keys db') ∧
    (unique_emails db → unique_emails db') ∧
    (tidy db → tidy db').
Proof.
  destruct (seed_result now later db) as (pid & Hseed & Hcase).
  cbv zeta in Hseed. eexists _, pid. split; [exact Hseed|]. simpl.
  split_and!.
  - apply lookup_insert_eq.
  - intros (Hc & Hr & Hm). split_and!; simpl.
    + apply map_Forall_insert_2; [simpl; by rewrite lookup_insert_eq|].
      eapply map_Forall_impl; [exact Hc|]. intros ???. by apply is_Some_insert_mono.
    + repeat (apply map_Forall_insert_2; [simpl; by rewrite lookup_insert_eq|]).
      eapply map_Forall_impl; [exact Hr|]. intros ???. by apply is_Some_insert_mono.
    + apply map_Forall_insert_2; [simpl; by rewrite !lookup_insert_eq|].
      eapply map_Forall_impl; [exact Hm|]. intros ?? [??].
      split; by apply is_Some_insert_mono.
  - intros Huniq. by eapply seed_unique_emails.
  - intros (Hu & Hc & Hr & Hm). split_and!; simpl.
    + by apply map_Forall_insert_2.
    + apply map_Forall_insert_2; [|done]. simpl. by vm_compute.
    + repeat (apply map_Forall_insert_2; [simpl; by vm_compute|]). done.
    + apply map_Forall_insert_2; [|done]. simpl. by vm_compute.
Qed.

(** X27: after the seed has run on a store with unique emails, a login
    with the seeded email and password is answered 200 for the professor
    "Test Profesor", provided the hasher accepts the hash it made. *)
Theorem seed_then_login
    (compare : string → string → bool) (sign : Claim → string)
    (now later : Z) (db db' : Db) :
  unique_emails db →
  compare "test1234" (hash "test1234" 10) = true →
  seed hash now later db = Some db' →
  ∃ pid,
    users db' !! pid = Some (seeded_professor hash) ∧
    status (login compare sign
              (Some {| lb_email := Some "prof@test.com"; lb_password := Some "test1234" |})
              db') = 200 ∧
    body (login compare sign
            (Some {| lb_email := Some "prof@test.com"; lb_password := Some "test1234" |})
            db') = JUser pid "prof@test.com" "Test Profesor" PROFESSOR.
Proof.
  intros Huniq Hc Hseed.
  pose proof (seed_unique_emails now later db db' Huniq Hseed) as Hu.
  destruct (seed_result now later db) as (pid & Hr & _).
  cbv zeta in Hr. rewrite Hseed in Hr. injection Hr as Hdb'.
  assert (Hp : users db' !! pid = Some (seeded_professor hash)).
  { rewrite Hdb'. simpl. apply lookup_insert_eq. }
  exists pid. split; [done|].
  pose proof (user_findUnique_email_unique db' pid _ Hu Hp) as Hf.
  unfold login. simpl in *. rewrite Hf. simpl. rewrite Hc. done.
Qed.


End SeedProperties.

(** ** Concrete runs of the server and of the seed *)

Lemma sample_unique_emails : unique_emails Sample.db.
Proof.
  intros i j u v Hu Hv He.
  destruct (sample_users i u Hu) as [[-> ->]|[-> ->]],
           (sample_users j v Hv) as [[-> ->]|[-> ->]]; done.
Qed.

Lemma sample_tidy : tidy Sample.db.
Proof. unfold tidy, tidy_text. apply (bool_decide_unpack _). vm_compute. exact I. Qed.

Lemma refused_request_changes_nothing_witness :
  let a := {| at_time := 900; with_token := Some "token-of-u2";
              request := DeleteCourse "c1" |} in
  status (serve Sample.hash Sample.compare Sample.sign Sample.verify a Sample.db).1 = 403 ∧
  (serve Sample.hash Sample.compare Sample.sign Sample.verify a Sample.db).2 = Sample.db.
Proof.
  intros a. split; [vm_compute; reflexivity|].
  apply (refused_request_changes_nothing Sample.hash Sample.compare Sample.sign Sample.verify).
  vm_compute. intros [H|H]; discriminate H.
Defined.

Lemma accounts_never_change_witness :
  let a := {| at_time := 900; with_token := None;
              request := Register (Some {| rb_email := Some "ana@test.com";
                                           rb_password := Some "secret";
                                           rb_name := Some "Ana"; rb_role := None |}) |} in
  status (serve Sample.hash Sample.compare Sample.sign Sample.verify a Sample.db).1 = 201 ∧
  users (serve Sample.hash Sample.compare Sample.sign Sample.verify a Sample.db).2 !! "u1"
  = Some Sample.professor.
Proof.
  intros a. split; [vm_compute; reflexivity|].
  apply (accounts_never_change Sample.hash Sample.compare Sample.sign Sample.verify).
  vm_compute. reflexivity.
Defined.

Lemma course_changed_by_owner_only_witness :
  let a := {| at_time := 900; with_token := Some "token-of-u1";
              request := UpdateCourse "c1" (Some {| cb_title := Some "Titlu nou";
                                                    cb_description := None;
                                                    cb_category := None |}) |} in
  courses (serve Sample.hash Sample.compare Sample.sign Sample.verify a Sample.db).2 !! "c1"
  ≠ Some Sample.web ∧
  ∃ user, authenticate Sample.verify (with_token a) = inr user ∧ sub user = "u1".
Proof.
  intros a.
  assert (Hne : courses (serve Sample.hash Sample.compare Sample.sign Sample.verify a
                           Sample.db).2 !! "c1" ≠ Some Sample.web)
    by (vm_compute; discriminate).
  split; [exact Hne|].
  destruct (course_changed_by_owner_only Sample.hash Sample.compare Sample.sign
              Sample.verify a Sample.db "c1" Sample.web) as (user & Hauth & Hsub & _);
    [vm_compute; reflexivity | exact Hne |].
  exists user. split; [exact Hauth | exact Hsub].
Defined.

Lemma course_owner_and_time_fixed_witness :
  let a := {| at_time := 900; with_token := Some "token-of-u1";
              request := UpdateCourse "c1" (Some {| cb_title := Some "Titlu nou";
                                                    cb_description := None;
                                                    cb_category := None |}) |} in
  ∃ c', courses (serve Sample.hash Sample.compare Sample.sign Sample.verify a Sample.db).2
          !! "c1" = Some c' ∧
        course_title c' = "Titlu nou" ∧ course_ownerId c' = "u1" ∧ course_createdAt c' = 100%Z.
Proof.
  intros a.
  destruct (courses (serve Sample.hash Sample.compare Sample.sign Sample.verify a
                       Sample.db).2 !! "c1") as [c'|] eqn:Hc'; [|vm_compute in Hc'; discriminate].
  exists c'. split; [reflexivity|].
  destruct (course_owner_and_time_fixed Sample.hash Sample.compare Sample.sign
              Sample.verify a Sample.db "c1" Sample.web c') as [Ho Ht];
    [vm_compute; reflexivity | exact Hc' |].
  split_and!; [|exact Ho | exact Ht].
  vm_compute in Hc'. injection Hc' as <-. reflexivity.
Defined.

Lemma course_created_by_professor_only_witness :
  let a := {| at_time := 900; with_token := Some "token-of-u1";
              request := CreateCourse (Some {| cb_title := Some "Algebra";
                                               cb_description := Some "Matrice";
                                               cb_category := Some "Mate" |}) |} in
  ∃ c, courses (serve Sample.hash Sample.compare Sample.sign Sample.verify a Sample.db).2
         !! "0" = Some c ∧
       course_ownerId c = "u1" ∧ course_createdAt c = 900%Z.
Proof.
  intros a.
  destruct (courses (serve Sample.hash Sample.compare Sample.sign Sample.verify a
                       Sample.db).2 !! "0") as [c|] eqn:Hc; [|vm_compute in Hc; discriminate].
  exists c. split; [reflexivity|].
  destruct (course_created_by_professor_only Sample.hash Sample.compare Sample.sign
              Sample.verify a Sample.db "0" c) as (user & b & Hauth & _ & _ & Ho & Ht);
    [vm_compute; reflexivity | exact Hc |].
  vm_compute in Hauth. injection Hauth as <-. split; [exact Ho | exact Ht].
Defined.

Lemma resource_removed_by_owner_only_witness :
  let a := {| at_time := 900; with_token := Some "token-of-u1";
              request := DeleteCourse "c1" |} in
  let r1 := mkResource "Ghid HTML" "https://developer.mozilla.org/HTML" LINK 110 "c1" in
  resources (serve Sample.hash Sample.compare Sample.sign Sample.verify a Sample.db).2 !! "r1"
  = None ∧
  ∃ user, authenticate Sample.verify (with_token a) = inr user ∧
          course_ownerId Sample.web = sub user.
Proof.
  intros a r1.
  destruct (resource_removed_by_owner_only Sample.hash Sample.compare Sample.sign
              Sample.verify a Sample.db "r1" r1) as (Hgone & user & c & Hauth & Hc & Ho);
    [vm_compute; reflexivity | vm_compute; discriminate |].
  split; [exact Hgone|]. exists user. split; [exact Hauth|].
  vm_compute in Hc. injection Hc as <-. exact Ho.
Defined.

Lemma resource_added_by_owner_only_witness :
  let a := {| at_time := 900; with_token := Some "token-of-u1";
              request := AddResource "c2" (Some {| rs_title := Some "SQL";
                                                   rs_url := Some "https://sql.test";
                                                   rs_type := Some VIDEO |}) |} in
  ∃ r, resources (serve Sample.hash Sample.compare Sample.sign Sample.verify a Sample.db).2
         !! "0" = Some r ∧
       resource_courseId r = "c2" ∧ resource_createdAt r = 900%Z.
Proof.
  intros a.
  destruct (resources (serve Sample.hash Sample.compare Sample.sign Sample.verify a
                         Sample.db).2 !! "0") as [r|] eqn:Hr; [|vm_compute in Hr; discriminate].
  exists r. split; [reflexivity|].
  destruct (resource_added_by_owner_only Sample.hash Sample.compare Sample.sign
              Sample.verify a Sample.db "0" r) as (user & c & b & _ & Hreq & _ & _ & Ht);
    [vm_compute; reflexivity | exact Hr |].
  split; [|exact Ht]. simpl in Hreq. by injection Hreq as <-.
Defined.

Lemma comment_removed_by_author_or_owner_witness :
  let a := {| at_time := 900; with_token := Some "token-of-u2";
              request := DeleteComment "m1" |} in
  let m1 := mkComment "Cursul e clar si bine structurat." 130 "c1" "u2" in
  comments (serve Sample.hash Sample.compare Sample.sign Sample.verify a Sample.db).2 !! "m1"
  = None ∧
  ∃ user, authenticate Sample.verify (with_token a) = inr user.
Proof.
  intros a m1.
  destruct (comment_removed_by_author_or_owner Sample.hash Sample.compare Sample.sign
              Sample.verify a Sample.db "m1" m1) as (Hgone & user & Hauth & _);
    [vm_compute; reflexivity | vm_compute; discriminate |].
  split; [exact Hgone|]. exists user. exact Hauth.
Defined.

Lemma comment_added_by_caller_witness :
  let a := {| at_time := 900; with_token := Some "token-of-u2";
              request := AddComment "c2" (Some {| cm_content := Some "Util" |}) |} in
  ∃ m, comments (serve Sample.hash Sample.compare Sample.sign Sample.verify a Sample.db).2
         !! "0" = Some m ∧
       comment_userId m = "u2" ∧ comment_createdAt m = 900%Z.
Proof.
  intros a.
  destruct (comments (serve Sample.hash Sample.compare Sample.sign Sample.verify a
                        Sample.db).2 !! "0") as [m|] eqn:Hm; [|vm_compute in Hm; discriminate].
  exists m. split; [reflexivity|].
  destruct (comment_added_by_caller Sample.hash Sample.compare Sample.sign
              Sample.verify a Sample.db "0" m) as (user & b & Hauth & _ & Hu & _ & Ht);
    [vm_compute; reflexivity | exact Hm |].
  vm_compute in Hauth. injection Hauth as <-. split; [exact Hu | exact Ht].
Defined.

Lemma seed_then_login_witness :
  ∃ db',
    seed Sample.hash 1000 1001 Sample.db = Some db' ∧
    status (login Sample.compare Sample.sign
              (Some {| lb_email := Some "prof@test.com"; lb_password := Some "test1234" |})
              db') = 200.
Proof.
  destruct (seed Sample.hash 1000 1001 Sample.db) as [db'|] eqn:Hseed;
    [|vm_compute in Hseed; discriminate].
  exists db'. split; [reflexivity|].
  destruct (seed_then_login Sample.hash Sample.compare Sample.sign 1000 1001 Sample.db db')
    as (pid & _ & Hst & _); [exact sample_unique_emails | reflexivity | exact Hseed |].
  exact Hst.
Defined.


(** ** The replies of a refusal *)



Section Refusals.

Variable bcrypt_hash : string → nat → string.
Variable bcrypt_compare : string → string → bool.
Variable jwt_sign : Claim → string.
Variable jwt_verify : string → option Claim.

Abbreviation answer := (serve bcrypt_hash bcrypt_compare jwt_sign jwt_verify).



End Refusals.
